(** * Document layout of the diva.js viewer

    A shallow embedding of the layout engine ([getDocumentLayout] and its
    helpers) together with the properties its description states.

    Conventions of the embedding.
    - A JavaScript number is an exact rational ([Q]): no NaN, no infinity
      and no rounding of sums.  This is exact for the integers and
      half-integers below 2^53 that pixel geometry produces.
      [Math.floor] is [Qfloor] injected back into [Q], [Math.max] is [Qmax].
    - An array is a [list]; reading [a[i]] is stdpp's lookup [a !! i], and
      [undefined] is [None].  The per-zoom-level table [page.d] is a finite
      map from zoom levels to page data.
    - Reading a property of [undefined] raises a [TypeError]; a function
      that may raise returns a [result].
    - Objects are records, one module per shape, with the fields' names. *)

From Stdlib Require Import QArith Qround Qminmax Qabs Sorted Lqa.
From stdpp Require Import base option list gmap strings.

Local Open Scope Q_scope.

(** ** Results and exceptions *)

(** The only exception the engine can raise: a property read on
    [undefined].  [property] is the name of the property that was read. *)
Inductive exn : Type :=
| TypeError (property : string).

Inductive result (A : Type) : Type :=
| Return (a : A)
| Throw (e : exn).

Arguments Return {A} a.
Arguments Throw {A} e.

Definition bind {A B : Type} (r : result A) (k : A -> result B) : result B :=
  match r with
  | Return a => k a
  | Throw e => Throw e
  end.

Notation "x <- r ;; k" := (bind r (fun x => k))
  (at level 100, r at next level, right associativity).

(** ** Data model *)

Module PageData.
Record t : Type := mk { w : Q; h : Q }.
End PageData.

Module Page.
Record t : Type := mk { d : gmap nat PageData.t; paged : bool }.
End Page.

Module Manifest.
Record t : Type := mk { pages : list Page.t; paged : bool }.
End Manifest.

Module Options.
(** [round] may be missing from the options object. *)
Record t : Type := mk { round : option bool }.
End Options.

Module Dims.
Record t : Type := mk { width : Q; height : Q }.
End Dims.

(** A page waiting for its facing page: [extend({index: i}, pageDims)]. *)
Module IndexedPage.
Record t : Type := mk { index : nat; width : Q; height : Q }.
End IndexedPage.

Module PageOffset.
Record t : Type := mk { index : nat; top : Q; left : Q }.
End PageOffset.

Module Layout.
Record t : Type :=
  mk { height : Q; width : Q; pageOffsets : list PageOffset.t }.
End Layout.

Module PagePadding.
Record t : Type := mk { top : Q; left : Q }.
End PagePadding.

Module DocPadding.
Record t : Type := mk { top : Q; right : Q; bottom : Q; left : Q }.
End DocPadding.

Module Padding.
Record t : Type := mk { page : PagePadding.t; document : DocPadding.t }.
End Padding.

Module Config.
Record t : Type :=
  mk { manifest : Manifest.t;
       zoomLevel : nat;
       verticallyOriented : bool;
       inBookLayout : bool;
       padding : Padding.t }.
End Config.

Module Region.
Record t : Type := mk { top : Q; bottom : Q; left : Q; right : Q }.
End Region.

Module PageGroup.
Record t : Type :=
  mk { index : nat;
       layout : Layout.t;
       region : Region.t;
       padding : PagePadding.t }.
End PageGroup.

Module DocumentLayout.
Record t : Type := mk { dimensions : Dims.t; pageGroups : list PageGroup.t }.
End DocumentLayout.

(** ** Primitives of the host language *)

Definition Math_floor (x : Q) : Q := inject_Z (Qfloor x).

Definition Math_max (x y : Q) : Q := Qmax x y.

(** [a.forEach(function (x, i) { ... })] with the variables the callback
    assigns threaded as a state [s]; a throwing callback ends the loop. *)
Fixpoint forEach {A St : Type} (f : St -> A -> nat -> result St)
    (a : list A) (i : nat) (s : St) : result St :=
  match a with
  | [] => Return s
  | x :: a' => s' <- f s x i ;; forEach f a' (S i) s'
  end.

(** [a.map(function (x, i) { ... })] for a callback that may throw. *)
Fixpoint mapIndexed {A B : Type} (f : A -> nat -> result B)
    (a : list A) (i : nat) : result (list B) :=
  match a with
  | [] => Return []
  | x :: a' => y <- f x i ;; ys <- mapIndexed f a' (S i) ;; Return (y :: ys)
  end.

(** ** The layout engine *)

Definition getPageDimensions (pageIndex : nat) (manifest : Manifest.t)
    (zoomLevel : nat) (options : option Options.t) : result Dims.t :=
  match Manifest.pages manifest !! pageIndex with
  | None => Throw (TypeError "d")
  | Some page =>
      match Page.d page !! zoomLevel with
      | None => Throw (TypeError "w")
      | Some pageData =>
          let width := Math_floor (PageData.w pageData) in
          let height := Math_floor (PageData.h pageData) in
          let round :=
            match options with
            | None => true
            | Some o => default false (Options.round o)
            end in
          if round
          then Return (Dims.mk (Math_floor width) (Math_floor height))
          else Return (Dims.mk width height)
      end
  end.

Definition getSinglesLayoutGroups (manifest : Manifest.t) (zoomLevel : nat)
    : result (list Layout.t) :=
  mapIndexed
    (fun _ i =>
       pageDims <- getPageDimensions i manifest zoomLevel None ;;
       Return (Layout.mk (Dims.height pageDims) (Dims.width pageDims)
                 [PageOffset.mk i 0 0]))
    (Manifest.pages manifest) 0.

Definition getFacingPageGroup (leftPage rightPage : IndexedPage.t)
    (verticallyOriented : bool) : Layout.t :=
  let height :=
    Math_max (IndexedPage.height leftPage) (IndexedPage.height rightPage) in
  let midWidth :=
    Math_max (IndexedPage.width leftPage) (IndexedPage.width rightPage) in
  let width :=
    if verticallyOriented then midWidth * 2
    else IndexedPage.width leftPage + IndexedPage.width rightPage in
  let firstLeftOffset :=
    if verticallyOriented then midWidth - IndexedPage.width leftPage else 0 in
  let secondLeftOffset :=
    if verticallyOriented then midWidth else IndexedPage.width leftPage in
  Layout.mk height width
    [PageOffset.mk (IndexedPage.index leftPage) 0 firstLeftOffset;
     PageOffset.mk (IndexedPage.index rightPage) 0 secondLeftOffset].

(** The variables the scan of [getBookLayoutGroups] assigns. *)
Module BookScan.
Record t : Type :=
  mk { groups : list Layout.t; leftPage : option IndexedPage.t }.
End BookScan.

Definition skipped (manifest : Manifest.t) (page : Page.t) : bool :=
  Manifest.paged manifest && negb (Page.paged page).

Definition withIndex (index : nat) (pageDims : Dims.t) : IndexedPage.t :=
  IndexedPage.mk index (Dims.width pageDims) (Dims.height pageDims).

Definition bookPage (manifest : Manifest.t) (zoomLevel : nat)
    (verticallyOriented : bool)
    (s : BookScan.t) (page : Page.t) (index : nat) : result BookScan.t :=
  if skipped manifest page then Return s
  else
    pageDims <-
      getPageDimensions index manifest zoomLevel
        (Some (Options.mk (Some false))) ;;
    if verticallyOriented && (index =? 0)%nat
    then
      Return
        (BookScan.mk
           (BookScan.groups s ++
              [Layout.mk (Dims.height pageDims) (Dims.width pageDims * 2)
                 [PageOffset.mk 0 0 (Dims.width pageDims)]])
           (BookScan.leftPage s))
    else
      match BookScan.leftPage s with
      | None => Return (BookScan.mk (BookScan.groups s)
                          (Some (withIndex index pageDims)))
      | Some leftPage =>
          Return
            (BookScan.mk
               (BookScan.groups s ++
                  [getFacingPageGroup leftPage (withIndex index pageDims)
                     verticallyOriented])
               None)
      end.

(** The flush of a last left page, after the scan. *)
Definition flushLeftPage (verticallyOriented : bool) (s : BookScan.t)
    : list Layout.t :=
  match BookScan.leftPage s with
  | Some leftPage =>
      BookScan.groups s ++
        [Layout.mk (IndexedPage.height leftPage)
           (if verticallyOriented
            then IndexedPage.width leftPage * 2
            else IndexedPage.width leftPage)
           [PageOffset.mk (IndexedPage.index leftPage) 0 0]]
  | None => BookScan.groups s
  end.

Definition getBookLayoutGroups (manifest : Manifest.t) (zoomLevel : nat)
    (verticallyOriented : bool) : result (list Layout.t) :=
  s <- forEach (bookPage manifest zoomLevel verticallyOriented)
         (Manifest.pages manifest) 0 (BookScan.mk [] None) ;;
  Return (flushLeftPage verticallyOriented s).

Definition secondaryPadding (config : Config.t) : Q :=
  let docPadding := Padding.document (Config.padding config) in
  if Config.verticallyOriented config
  then DocPadding.left docPadding + DocPadding.right docPadding
  else DocPadding.top docPadding + DocPadding.bottom docPadding.

Definition secondaryDim (config : Config.t) (layout : Layout.t) : Q :=
  if Config.verticallyOriented config
  then Layout.width layout
  else Layout.height layout.

Definition getExtentAlongSecondaryAxis (layouts : list Layout.t)
    (config : Config.t) : Q :=
  secondaryPadding config +
  fold_left (fun maxDim layout => Math_max (secondaryDim config layout) maxDim)
    layouts 0.

(** The variables the placing loop of [getDocumentLayout] assigns. *)
Module Placing.
Record t : Type :=
  mk { primaryDocPosition : Q; pageGroups : list PageGroup.t }.
End Placing.

Definition pagePaddingOf (config : Config.t) : PagePadding.t :=
  PagePadding.mk
    (PagePadding.top (Padding.page (Config.padding config)))
    (PagePadding.left (Padding.page (Config.padding config))).

Definition placeGroup (config : Config.t) (documentSecondaryExtent : Q)
    (s : Placing.t) (layout : Layout.t) (index : nat) : Placing.t :=
  let pagePadding := pagePaddingOf config in
  let top :=
    if Config.verticallyOriented config
    then Placing.primaryDocPosition s
    else (documentSecondaryExtent - Layout.height layout) / 2 in
  let left :=
    if Config.verticallyOriented config
    then (documentSecondaryExtent - Layout.width layout) / 2
    else Placing.primaryDocPosition s in
  let region :=
    Region.mk top (top + PagePadding.top pagePadding + Layout.height layout)
      left (left + PagePadding.left pagePadding + Layout.width layout) in
  Placing.mk
    (if Config.verticallyOriented config
     then Region.bottom region else Region.right region)
    (Placing.pageGroups s ++ [PageGroup.mk index layout region pagePadding]).

(** The placing loop: its callback cannot throw. *)
Fixpoint placeGroups (config : Config.t) (documentSecondaryExtent : Q)
    (layouts : list Layout.t) (index : nat) (s : Placing.t) : Placing.t :=
  match layouts with
  | [] => s
  | layout :: layouts' =>
      placeGroups config documentSecondaryExtent layouts' (S index)
        (placeGroup config documentSecondaryExtent s layout index)
  end.

Definition getDocumentLayout (config : Config.t) : result DocumentLayout.t :=
  layouts <-
    (if Config.inBookLayout config
     then getBookLayoutGroups (Config.manifest config)
            (Config.zoomLevel config) (Config.verticallyOriented config)
     else getSinglesLayoutGroups (Config.manifest config)
            (Config.zoomLevel config)) ;;
  let documentSecondaryExtent := getExtentAlongSecondaryAxis layouts config in
  let pagePadding := pagePaddingOf config in
  let s :=
    placeGroups config documentSecondaryExtent layouts 0 (Placing.mk 0 []) in
  let height :=
    if Config.verticallyOriented config
    then Placing.primaryDocPosition s + PagePadding.top pagePadding
    else documentSecondaryExtent in
  let width :=
    if Config.verticallyOriented config
    then documentSecondaryExtent
    else Placing.primaryDocPosition s + PagePadding.left pagePadding in
  Return (DocumentLayout.mk (Dims.mk width height) (Placing.pageGroups s)).

(** ** Vocabulary of the properties

    The description speaks of a primary (scrolling) axis and a secondary
    (centring) axis; these select the matching fields by orientation. *)

Definition leadingEdge (config : Config.t) (r : Region.t) : Q :=
  if Config.verticallyOriented config then Region.top r else Region.left r.

Definition trailingEdge (config : Config.t) (r : Region.t) : Q :=
  if Config.verticallyOriented config then Region.bottom r else Region.right r.

Definition secondaryOffset (config : Config.t) (r : Region.t) : Q :=
  if Config.verticallyOriented config then Region.left r else Region.top r.

Definition primaryExtent (config : Config.t) (dims : Dims.t) : Q :=
  if Config.verticallyOriented config
  then Dims.height dims else Dims.width dims.

Definition secondaryExtent (config : Config.t) (dims : Dims.t) : Q :=
  if Config.verticallyOriented config
  then Dims.width dims else Dims.height dims.

Definition leadingPagePadding (config : Config.t) : Q :=
  let pagePadding := Padding.page (Config.padding config) in
  if Config.verticallyOriented config
  then PagePadding.top pagePadding else PagePadding.left pagePadding.

Definition leadingDocPadding (config : Config.t) : Q :=
  let docPadding := Padding.document (Config.padding config) in
  if Config.verticallyOriented config
  then DocPadding.top docPadding else DocPadding.left docPadding.

(** The value of the primary-axis cursor once the groups [gs] are placed:
    the trailing edge of the last one, or the initial 0 when there is none. *)
Definition finalCursor (config : Config.t) (gs : list PageGroup.t) : Q :=
  match last gs with
  | Some g => trailingEdge config (PageGroup.region g)
  | None => 0
  end.

(** The page indices a sequence of layout groups refers to, in order. *)
Definition pageIndices (gs : list Layout.t) : list nat :=
  concat (map (fun g => map PageOffset.index (Layout.pageOffsets g)) gs).

(** A page of [ps] lacks the zoom level; [visited] tells the pages the
    grouper looks at. *)
Definition lacksZoomLevel (zoomLevel : nat) (visited : Page.t -> bool)
    (ps : list Page.t) : Prop :=
  exists k page,
    ps !! k = Some page /\ Page.d page !! zoomLevel = None /\
    visited page = true.

(** The pages whose dimensions [getDocumentLayout] resolves: all of them,
    but for those the book layout skips. *)
Definition resolved (config : Config.t) (page : Page.t) : bool :=
  negb (Config.inBookLayout config && skipped (Config.manifest config) page).

(** The indices of the pages of [ps], numbered from [i], that the book
    layout does not skip. *)
Fixpoint keptIndices (manifest : Manifest.t) (ps : list Page.t) (i : nat)
    : list nat :=
  match ps with
  | [] => []
  | page :: ps' =>
      if skipped manifest page then keptIndices manifest ps' (S i)
      else i :: keptIndices manifest ps' (S i)
  end.

(** The page indices a scan state holds: those of the groups pushed so far,
    then that of the pending left page. *)
Definition scanIndices (s : BookScan.t) : list nat :=
  pageIndices (BookScan.groups s) ++
  match BookScan.leftPage s with
  | Some leftPage => [IndexedPage.index leftPage]
  | None => []
  end.

(** A group of exactly two pages with consecutive indices. *)
Definition facingPair (g : Layout.t) : Prop :=
  exists o1 o2,
    Layout.pageOffsets g = [o1; o2] /\
    PageOffset.index o2 = S (PageOffset.index o1).

(** The state of a scan that skips nothing and pairs from the first page
    on, before the page of index [i]. *)
Definition pairing (i : nat) (s : BookScan.t) : Prop :=
  Forall facingPair (BookScan.groups s) /\
  match BookScan.leftPage s with
  | Some leftPage =>
      S (IndexedPage.index leftPage) = i /\
      (2 * length (BookScan.groups s) + 1 = i)%nat
  | None => (2 * length (BookScan.groups s) = i)%nat
  end.

Definition primaryDim (config : Config.t) (layout : Layout.t) : Q :=
  if Config.verticallyOriented config
  then Layout.height layout
  else Layout.width layout.

(** The length along the primary axis that [layouts] take once placed: each
    group preceded by the leading page padding. *)
Definition primarySpan (config : Config.t) (layouts : list Layout.t) : Q :=
  fold_right
    (fun layout span =>
       leadingPagePadding config + primaryDim config layout + span)
    0 layouts.

(** The layout groups [getDocumentLayout] places. *)
Definition layoutGroups (config : Config.t) : result (list Layout.t) :=
  if Config.inBookLayout config
  then getBookLayoutGroups (Config.manifest config)
         (Config.zoomLevel config) (Config.verticallyOriented config)
  else getSinglesLayoutGroups (Config.manifest config)
         (Config.zoomLevel config).

(** No page has a negative raw dimension at the zoom level. *)
Definition nonnegPages (manifest : Manifest.t) (zoomLevel : nat) : Prop :=
  forall page pageData,
    page ∈ Manifest.pages manifest ->
    Page.d page !! zoomLevel = Some pageData ->
    0 <= PageData.w pageData /\ 0 <= PageData.h pageData.

(** The three shapes of a group of the book layout, from the dimensions of
    the pages it holds: the first page alone on the right (vertical
    orientation only), two facing pages, a last left page alone. *)
Inductive bookGroup (manifest : Manifest.t) (zoomLevel : nat)
    (verticallyOriented : bool) : Layout.t -> Prop :=
| bookGroup_first pageDims :
    verticallyOriented = true ->
    getPageDimensions 0 manifest zoomLevel None = Return pageDims ->
    bookGroup manifest zoomLevel verticallyOriented
      (Layout.mk (Dims.height pageDims) (Dims.width pageDims * 2)
         [PageOffset.mk 0 0 (Dims.width pageDims)])
| bookGroup_facing i j leftDims rightDims :
    getPageDimensions i manifest zoomLevel None = Return leftDims ->
    getPageDimensions j manifest zoomLevel None = Return rightDims ->
    bookGroup manifest zoomLevel verticallyOriented
      (getFacingPageGroup (withIndex i leftDims) (withIndex j rightDims)
         verticallyOriented)
| bookGroup_last i pageDims :
    getPageDimensions i manifest zoomLevel None = Return pageDims ->
    bookGroup manifest zoomLevel verticallyOriented
      (Layout.mk (Dims.height pageDims)
         (if verticallyOriented
          then Dims.width pageDims * 2 else Dims.width pageDims)
         [PageOffset.mk i 0 0]).

(** The scan of the book layout has only made groups of these shapes, and
    its pending left page carries the dimensions of its page. *)
Definition scanShaped (manifest : Manifest.t) (zoomLevel : nat)
    (verticallyOriented : bool) (s : BookScan.t) : Prop :=
  Forall (bookGroup manifest zoomLevel verticallyOriented)
    (BookScan.groups s) /\
  forall leftPage, BookScan.leftPage s = Some leftPage ->
    exists pageDims,
      getPageDimensions (IndexedPage.index leftPage) manifest zoomLevel None
        = Return pageDims /\
      leftPage = withIndex (IndexedPage.index leftPage) pageDims.

(** Consecutive pairs of a list, a last odd element alone. *)
Fixpoint pairs (l : list nat) : list (list nat) :=
  match l with
  | [] => []
  | [i] => [[i]]
  | i :: j :: l' => [i; j] :: pairs l'
  end.

(** How page indices that are kept fall into groups: in vertical
    orientation page 0, if kept, is alone; the others go by pairs. *)
Definition bookGrouping (verticallyOriented : bool) (kept : list nat)
    : list (list nat) :=
  match kept with
  | O :: kept' =>
      if verticallyOriented then [O] :: pairs kept' else pairs kept
  | _ => pairs kept
  end.

Definition groupIndices (gs : list Layout.t) : list (list nat) :=
  map (fun g => map PageOffset.index (Layout.pageOffsets g)) gs.

(** A page offset lies, with its page, inside the group [g]. *)
Definition pageInside (manifest : Manifest.t) (zoomLevel : nat)
    (g : Layout.t) (o : PageOffset.t) : Prop :=
  exists pageDims,
    getPageDimensions (PageOffset.index o) manifest zoomLevel None =
      Return pageDims /\
    PageOffset.top o = 0 /\
    0 <= PageOffset.left o /\
    PageOffset.left o + Dims.width pageDims <= Layout.width g /\
    Dims.height pageDims <= Layout.height g.

(** The pages the book layout keeps. *)
Definition keptPages (manifest : Manifest.t) : list Page.t :=
  filter (fun page => skipped manifest page = false)
    (Manifest.pages manifest).

(** Whether the book layout puts the first page alone in a first group. *)
Definition firstAlone (manifest : Manifest.t) (verticallyOriented : bool)
    : bool :=
  match Manifest.pages manifest with
  | page :: _ => verticallyOriented && negb (skipped manifest page)
  | [] => false
  end.

(** A number with an integer value. *)
Definition isInteger (x : Q) : Prop := exists z : Z, x == inject_Z z.

(** [config] with other pages in its manifest. *)
Definition withPages (config : Config.t) (pages : list Page.t) : Config.t :=
  Config.mk
    (Manifest.mk pages (Manifest.paged (Config.manifest config)))
    (Config.zoomLevel config) (Config.verticallyOriented config)
    (Config.inBookLayout config) (Config.padding config).

(** Two pages that [getDocumentLayout] cannot tell apart: the same paged
    flag and, if the page is resolved, the same entry at the zoom level. *)
Definition samePage (config : Config.t) (page page' : Page.t) : Prop :=
  Page.paged page = Page.paged page' /\
  (resolved config page = true ->
   Page.d page !! Config.zoomLevel config =
   Page.d page' !! Config.zoomLevel config).

(** ** The properties as the description words them, where they differ
    from what the engine computes *)

(** The primary extent taken as the cursor plus the document-level leading
    padding. *)
Definition extent_adds_document_padding (config : Config.t) : Prop :=
  Manifest.pages (Config.manifest config) <> [] ->
  forall r, getDocumentLayout config = Return r ->
    primaryExtent config (DocumentLayout.dimensions r) ==
      finalCursor config (DocumentLayout.pageGroups r) +
      leadingDocPadding config /\
    secondaryExtent config (DocumentLayout.dimensions r) ==
      getExtentAlongSecondaryAxis
        (map PageGroup.layout (DocumentLayout.pageGroups r)) config.

(** Centring measured against the secondary extent less the document
    padding, up to a tolerance [tol]. *)
Definition centred_in_unpadded_extent (config : Config.t) (tol : Q) : Prop :=
  forall r, getDocumentLayout config = Return r ->
    forall g, g ∈ DocumentLayout.pageGroups r ->
      Qabs (2 * secondaryOffset config (PageGroup.region g) +
              secondaryDim config (PageGroup.layout g) -
            (secondaryExtent config (DocumentLayout.dimensions r) -
             secondaryPadding config)) <= tol.

(** Book layout made of facing pairs only, whatever the orientation. *)
Definition pairs_in_any_orientation (manifest : Manifest.t) (zoomLevel : nat)
    (verticallyOriented : bool) : Prop :=
  Manifest.paged manifest = false ->
  Nat.Even (length (Manifest.pages manifest)) ->
  forall gs,
    getBookLayoutGroups manifest zoomLevel verticallyOriented = Return gs ->
    length gs = (length (Manifest.pages manifest) / 2)%nat /\
    Forall facingPair gs.

(** A zoom level missing from the table of any page makes the layout
    fail. *)
Definition missing_zoom_level_fails_layout (config : Config.t) : Prop :=
  forall pageIndex page,
    Manifest.pages (Config.manifest config) !! pageIndex = Some page ->
    Page.d page !! Config.zoomLevel config = None ->
    exists e, getDocumentLayout config = Throw e.

(** ** Sample inputs *)

Definition page100x200 : Page.t :=
  Page.mk {[ 0%nat := PageData.mk 100 200 ]} false.

(** One page, single-page mode, vertical, with distinct paddings. *)
Definition paddedSingle : Config.t :=
  Config.mk (Manifest.mk [page100x200] false) 0 true false
    (Padding.mk (PagePadding.mk 5 7) (DocPadding.mk 10 10 10 10)).

Definition paddedSingleLayout : DocumentLayout.t :=
  DocumentLayout.mk (Dims.mk 120 210)
    [PageGroup.mk 0 (Layout.mk 200 100 [PageOffset.mk 0 0 0])
       (Region.mk 0 205 (20 # 2) (234 # 2)) (PagePadding.mk 5 7)].

Definition twoPages : Manifest.t :=
  Manifest.mk [page100x200; page100x200] false.

(** Three pages of 100 by 200 at zoom level 0, book layout, vertical. *)
Definition bookOf3 (padding : Padding.t) : Config.t :=
  Config.mk (Manifest.mk [page100x200; page100x200; page100x200] false)
    0 true true padding.

Definition samplePadding : Padding.t :=
  Padding.mk (PagePadding.mk 5 7) (DocPadding.mk 1 2 3 4).

Definition bookOf3Group0 : PageGroup.t :=
  PageGroup.mk 0 (Layout.mk 200 200 [PageOffset.mk 0 0 100])
    (Region.mk 0 205 (6 # 2) (420 # 2)) (PagePadding.mk 5 7).

Definition bookOf3Group1 : PageGroup.t :=
  PageGroup.mk 1
    (Layout.mk 200 200 [PageOffset.mk 1 0 0; PageOffset.mk 2 0 100])
    (Region.mk 205 410 (6 # 2) (420 # 2)) (PagePadding.mk 5 7).

Definition bookOf3Layout : DocumentLayout.t :=
  DocumentLayout.mk (Dims.mk 206 415) [bookOf3Group0; bookOf3Group1].

(** Zoom level 3 is not in the pages' tables. *)
Definition missingZoom : Config.t :=
  Config.mk twoPages 3 true true samplePadding.

Definition emptyBook : Config.t :=
  Config.mk (Manifest.mk [] false) 0 false true samplePadding.

Definition pagedPage : Page.t :=
  Page.mk {[ 0%nat := PageData.mk 100 200 ]} true.

(** A paged manifest whose second canvas is not paged. *)
Definition withInsert : Manifest.t :=
  Manifest.mk [pagedPage; page100x200; pagedPage; pagedPage] true.

Definition withInsertGroups : list Layout.t :=
  [Layout.mk 200 200 [PageOffset.mk 0 0 0; PageOffset.mk 2 0 100];
   Layout.mk 200 100 [PageOffset.mk 3 0 0]].

(** The three-page book with other zoom levels in the tables, and a second
    page that is not paged (the manifest is not paged either). *)
Definition bookOf3Richer : list Page.t :=
  [Page.mk {[ 0%nat := PageData.mk 100 200; 1%nat := PageData.mk 50 100 ]}
     false;
   page100x200;
   Page.mk {[ 0%nat := PageData.mk 100 200; 2%nat := PageData.mk 25 50 ]}
     false].

Definition emptyPage : Page.t := Page.mk ∅ false.

(** Book layout of a paged manifest whose second canvas is not paged and
    has no dimensions at all. *)
Definition skippedLacksZoom : Config.t :=
  Config.mk (Manifest.mk [pagedPage; emptyPage; pagedPage] true)
    0 false true samplePadding.

(** ** The result monad *)

Lemma bind_Return {A B : Type} (r : result A) (k : A -> result B) (b : B) :
  bind r k = Return b -> exists a, r = Return a /\ k a = Return b.
Proof. destruct r as [a|e]; simpl; [eauto | discriminate]. Qed.

(** ** The placing loop *)

Section Placing.
Variable config : Config.t.
Variable extent : Q.

Lemma placeGroups_snoc layouts layout index s :
  placeGroups config extent (layouts ++ [layout]) index s =
  placeGroup config extent (placeGroups config extent layouts index s)
    layout (index + length layouts).
Proof.
  revert index s.
  induction layouts as [|l0 layouts IH]; intros index s; simpl.
  - by rewrite Nat.add_0_r.
  - rewrite IH. f_equal. lia.
Qed.

(** An induction principle over the states the loop goes through. *)
Lemma placeGroups_ind (P : list Layout.t -> Placing.t -> Prop) s0 index :
  P [] s0 ->
  (forall done s layout,
      P done s ->
      P (done ++ [layout])
        (placeGroup config extent s layout (index + length done))) ->
  forall layouts, P layouts (placeGroups config extent layouts index s0).
Proof.
  intros Hnil Hstep layouts.
  induction layouts as [|layout layouts IH] using rev_ind; [exact Hnil|].
  rewrite placeGroups_snoc. by apply Hstep.
Qed.

Lemma placeGroups_layouts layouts :
  map PageGroup.layout
    (Placing.pageGroups
       (placeGroups config extent layouts 0 (Placing.mk 0 []))) = layouts.
Proof.
  apply (placeGroups_ind
           (fun done s => map PageGroup.layout (Placing.pageGroups s) = done));
    [done|].
  intros done s layout IH. simpl. by rewrite map_app, IH.
Qed.

Lemma placeGroups_cursor layouts :
  let s := placeGroups config extent layouts 0 (Placing.mk 0 []) in
  Placing.primaryDocPosition s = finalCursor config (Placing.pageGroups s).
Proof.
  apply (placeGroups_ind
           (fun _ s => Placing.primaryDocPosition s =
                       finalCursor config (Placing.pageGroups s)));
    [done|].
  intros done s layout _. unfold finalCursor, trailingEdge. simpl.
  by rewrite last_snoc.
Qed.

Lemma placeGroups_adjacent layouts :
  let s := placeGroups config extent layouts 0 (Placing.mk 0 []) in
  forall i g1 g2,
    Placing.pageGroups s !! i = Some g1 ->
    Placing.pageGroups s !! S i = Some g2 ->
    trailingEdge config (PageGroup.region g1) =
    leadingEdge config (PageGroup.region g2).
Proof.
  apply (placeGroups_ind
           (fun _ s =>
              Placing.primaryDocPosition s =
                finalCursor config (Placing.pageGroups s) /\
              forall i g1 g2,
                Placing.pageGroups s !! i = Some g1 ->
                Placing.pageGroups s !! S i = Some g2 ->
                trailingEdge config (PageGroup.region g1) =
                leadingEdge config (PageGroup.region g2))).
  - split; [done|]. intros i g1 g2 H. simpl in H. by rewrite lookup_nil in H.
  - intros done s layout [Hcur Hadj]. split.
    + unfold finalCursor, trailingEdge. simpl. by rewrite last_snoc.
    + simpl. intros i g1 g2 H1 H2.
      destruct (decide (S i < length (Placing.pageGroups s))%nat) as [Hlt|Hge].
      * rewrite lookup_app_l in H1 by lia.
        rewrite lookup_app_l in H2 by lia. eauto.
      * assert (S i = length (Placing.pageGroups s)) as Hi.
        { apply lookup_lt_Some in H2. rewrite length_app in H2.
          simpl in H2. lia. }
        rewrite lookup_app_l in H1 by lia.
        rewrite lookup_app_r in H2 by lia.
        replace (S i - length (Placing.pageGroups s))%nat with 0%nat in H2
          by lia.
        simpl in H2. injection H2 as <-.
        assert (last (Placing.pageGroups s) = Some g1) as Hlast.
        { rewrite last_lookup, <- Hi. exact H1. }
        unfold finalCursor in Hcur. rewrite Hlast in Hcur.
        rewrite <- Hcur. unfold leadingEdge. simpl.
        by destruct (Config.verticallyOriented config).
Qed.

Lemma placeGroups_centred layouts :
  let s := placeGroups config extent layouts 0 (Placing.mk 0 []) in
  forall g,
    g ∈ Placing.pageGroups s ->
    2 * secondaryOffset config (PageGroup.region g) +
      secondaryDim config (PageGroup.layout g) == extent.
Proof.
  apply (placeGroups_ind
           (fun _ s =>
              forall g,
                g ∈ Placing.pageGroups s ->
                2 * secondaryOffset config (PageGroup.region g) +
                  secondaryDim config (PageGroup.layout g) == extent)).
  - intros g H. simpl in H. by apply elem_of_nil in H.
  - intros done s layout IH g Hg. simpl in Hg.
    apply elem_of_app in Hg as [Hg|Hg]; [by apply IH|].
    apply list_elem_of_singleton in Hg as ->.
    unfold secondaryOffset, secondaryDim. simpl.
    destruct (Config.verticallyOriented config); field.
Qed.
End Placing.

(** ** The compositor *)

Lemma getDocumentLayout_Return (config : Config.t) (r : DocumentLayout.t) :
  getDocumentLayout config = Return r ->
  exists layouts,
    (if Config.inBookLayout config
     then getBookLayoutGroups (Config.manifest config)
            (Config.zoomLevel config) (Config.verticallyOriented config)
     else getSinglesLayoutGroups (Config.manifest config)
            (Config.zoomLevel config)) = Return layouts /\
    let extent := getExtentAlongSecondaryAxis layouts config in
    let s := placeGroups config extent layouts 0 (Placing.mk 0 []) in
    DocumentLayout.pageGroups r = Placing.pageGroups s /\
    primaryExtent config (DocumentLayout.dimensions r) =
      Placing.primaryDocPosition s + leadingPagePadding config /\
    secondaryExtent config (DocumentLayout.dimensions r) = extent.
Proof.
  unfold getDocumentLayout. intros H.
  apply bind_Return in H as (layouts & Hl & H).
  exists layouts. split; [exact Hl|].
  injection H as <-.
  unfold primaryExtent, secondaryExtent, leadingPagePadding. simpl.
  by destruct (Config.verticallyOriented config).
Qed.

(** C1 (as amended).  When [getDocumentLayout] returns, the extent along the
    primary axis is the final cursor value (the trailing edge of the last
    group, 0 when there is no group) plus the page-level leading padding
    ([padding.page.top] when vertically oriented, [padding.page.left]
    otherwise), and the extent along the secondary axis is the value of
    [getExtentAlongSecondaryAxis] on the layout groups. *)
Theorem document_extent (config : Config.t) (r : DocumentLayout.t) :
  getDocumentLayout config = Return r ->
  primaryExtent config (DocumentLayout.dimensions r) =
    finalCursor config (DocumentLayout.pageGroups r) +
    leadingPagePadding config /\
  secondaryExtent config (DocumentLayout.dimensions r) =
    getExtentAlongSecondaryAxis
      (map PageGroup.layout (DocumentLayout.pageGroups r)) config.
Proof.
  intros H. apply getDocumentLayout_Return in H as (layouts & _ & H).
  simpl in H. destruct H as (-> & -> & ->).
  by rewrite placeGroups_cursor, placeGroups_layouts.
Qed.

Lemma document_extent_witness :
  getDocumentLayout paddedSingle = Return paddedSingleLayout /\
  (primaryExtent paddedSingle (DocumentLayout.dimensions paddedSingleLayout) =
     finalCursor paddedSingle (DocumentLayout.pageGroups paddedSingleLayout) +
     leadingPagePadding paddedSingle /\
   secondaryExtent paddedSingle (DocumentLayout.dimensions paddedSingleLayout) =
     getExtentAlongSecondaryAxis
       (map PageGroup.layout (DocumentLayout.pageGroups paddedSingleLayout))
       paddedSingle).
Proof.
  split; [vm_compute; reflexivity|].
  apply document_extent. vm_compute. reflexivity.
Defined.

(** C1 (as worded) fails: with page padding 5 and document padding 10 the
    height is 205 + 5, not 205 + 10. *)
Lemma document_extent_not_document_padding :
  ~ extent_adds_document_padding paddedSingle.
Proof.
  intros H.
  destruct (H ltac:(discriminate) paddedSingleLayout) as [H1 _].
  - vm_compute. reflexivity.
  - vm_compute in H1. discriminate.
Qed.

(** C5.  The regions of the groups [getDocumentLayout] produces are chained
    along the primary axis: the trailing edge of each region (bottom when
    vertically oriented, right otherwise) is exactly the leading edge (top,
    respectively left) of the next one. *)
Theorem regions_adjacent (config : Config.t) (r : DocumentLayout.t)
    (i : nat) (g1 g2 : PageGroup.t) :
  getDocumentLayout config = Return r ->
  DocumentLayout.pageGroups r !! i = Some g1 ->
  DocumentLayout.pageGroups r !! S i = Some g2 ->
  trailingEdge config (PageGroup.region g1) =
  leadingEdge config (PageGroup.region g2).
Proof.
  intros H. apply getDocumentLayout_Return in H as (layouts & _ & H).
  simpl in H. destruct H as (-> & _ & _).
  apply placeGroups_adjacent.
Qed.

(** C6 (as amended).  For every group placed by [getDocumentLayout], twice
    its secondary-axis offset plus its secondary dimension equals the
    secondary extent itself, document padding included, and exactly. *)
Theorem groups_centred (config : Config.t) (r : DocumentLayout.t)
    (g : PageGroup.t) :
  getDocumentLayout config = Return r ->
  g ∈ DocumentLayout.pageGroups r ->
  2 * secondaryOffset config (PageGroup.region g) +
    secondaryDim config (PageGroup.layout g) ==
  secondaryExtent config (DocumentLayout.dimensions r).
Proof.
  intros H. apply getDocumentLayout_Return in H as (layouts & _ & H).
  simpl in H. destruct H as (-> & _ & ->).
  apply placeGroups_centred.
Qed.

(** C6 (as worded) fails: with document padding 10 + 10 around a group of
    width 100 the two sides differ by 20 pixels, far beyond rounding. *)
Lemma groups_not_centred_in_unpadded_extent :
  ~ centred_in_unpadded_extent paddedSingle 1.
Proof.
  intros H.
  specialize (H paddedSingleLayout).
  assert (getDocumentLayout paddedSingle = Return paddedSingleLayout) as E
    by (vm_compute; reflexivity).
  specialize (H E _ (list_elem_of_here _ _)).
  vm_compute in H. by apply H.
Qed.

(** C9.  On a manifest without pages [getDocumentLayout] returns: there is
    no page group, and the dimensions are padding only (the leading page
    padding along the primary axis, the document padding along the
    secondary axis). *)
Theorem empty_manifest (config : Config.t) :
  Manifest.pages (Config.manifest config) = [] ->
  exists dims,
    getDocumentLayout config = Return (DocumentLayout.mk dims []) /\
    primaryExtent config dims == leadingPagePadding config /\
    secondaryExtent config dims == secondaryPadding config.
Proof.
  intros Hnil. unfold getDocumentLayout, getBookLayoutGroups,
    getSinglesLayoutGroups. rewrite Hnil.
  unfold primaryExtent, secondaryExtent, leadingPagePadding,
    getExtentAlongSecondaryAxis.
  destruct (Config.inBookLayout config); simpl;
    (eexists; split; [reflexivity|]);
    destruct (Config.verticallyOriented config); simpl; split; ring.
Qed.

(** ** Facing pages *)

(** C7.  [getFacingPageGroup] returns a group as high as the higher page
    with both pages at top offset 0; vertically oriented it is twice as wide
    as the wider page, the left page ends and the right page starts at the
    seam in the middle; horizontally oriented the pages are edge to edge. *)
Theorem facing_page_group (leftPage rightPage : IndexedPage.t) :
  let li := IndexedPage.index leftPage in
  let lw := IndexedPage.width leftPage in
  let lh := IndexedPage.height leftPage in
  let ri := IndexedPage.index rightPage in
  let rw := IndexedPage.width rightPage in
  let rh := IndexedPage.height rightPage in
  let vertical := getFacingPageGroup leftPage rightPage true in
  let horizontal := getFacingPageGroup leftPage rightPage false in
  (Layout.height vertical = Qmax lh rh /\
   Layout.width vertical == 2 * Qmax lw rw /\
   Layout.pageOffsets vertical =
     [PageOffset.mk li 0 (Qmax lw rw - lw); PageOffset.mk ri 0 (Qmax lw rw)])
  /\
  (Layout.height horizontal = Qmax lh rh /\
   Layout.width horizontal = lw + rw /\
   Layout.pageOffsets horizontal =
     [PageOffset.mk li 0 0; PageOffset.mk ri 0 lw]).
Proof.
  simpl. unfold Math_max. repeat split; try reflexivity. ring.
Qed.

(** ** Page dimensions *)

Lemma Math_floor_idem (x : Q) : Math_floor (Math_floor x) = Math_floor x.
Proof. unfold Math_floor. by rewrite Qfloor_Z. Qed.

Lemma getPageDimensions_valid pageIndex manifest zoomLevel options
    (page : Page.t) (pageData : PageData.t) :
  Manifest.pages manifest !! pageIndex = Some page ->
  Page.d page !! zoomLevel = Some pageData ->
  getPageDimensions pageIndex manifest zoomLevel options =
  Return (Dims.mk (Math_floor (PageData.w pageData))
            (Math_floor (PageData.h pageData))).
Proof.
  intros Hp Hd. unfold getPageDimensions. rewrite Hp, Hd.
  destruct options as [[[[]|]]|]; simpl; by rewrite ?Math_floor_idem.
Qed.

Lemma getPageDimensions_absent pageIndex manifest zoomLevel options
    (page : Page.t) :
  Manifest.pages manifest !! pageIndex = Some page ->
  Page.d page !! zoomLevel = None ->
  getPageDimensions pageIndex manifest zoomLevel options =
  Throw (TypeError "w").
Proof. intros Hp Hd. unfold getPageDimensions. by rewrite Hp, Hd. Qed.

(** C8.  At a zoom level the page has, [getPageDimensions] returns the
    floors of the raw dimensions as integers whatever the options are: with
    [round: false] it returns what it returns with [round: true] and with
    no options at all. *)
Theorem round_flag_has_no_effect (pageIndex : nat) (manifest : Manifest.t)
    (zoomLevel : nat) (page : Page.t) (pageData : PageData.t) :
  Manifest.pages manifest !! pageIndex = Some page ->
  Page.d page !! zoomLevel = Some pageData ->
  let unrounded :=
    getPageDimensions pageIndex manifest zoomLevel
      (Some (Options.mk (Some false))) in
  unrounded =
    getPageDimensions pageIndex manifest zoomLevel
      (Some (Options.mk (Some true))) /\
  unrounded = getPageDimensions pageIndex manifest zoomLevel None /\
  forall options,
    getPageDimensions pageIndex manifest zoomLevel options =
    Return (Dims.mk (inject_Z (Qfloor (PageData.w pageData)))
              (inject_Z (Qfloor (PageData.h pageData)))).
Proof.
  intros Hp Hd. simpl.
  rewrite !(getPageDimensions_valid _ _ _ _ _ _ Hp Hd).
  repeat split. intros options.
  by rewrite (getPageDimensions_valid _ _ _ _ _ _ Hp Hd).
Qed.

(** ** Failure on a missing zoom level *)

Lemma drop_cons_inv {A : Type} (l : list A) (i : nat) (x : A) (l' : list A) :
  drop i l = x :: l' -> l !! i = Some x /\ drop (S i) l = l'.
Proof.
  intros H. split.
  - rewrite <- (Nat.add_0_r i), <- lookup_drop, H. done.
  - replace (S i) with (i + 1)%nat by lia.
    rewrite <- drop_drop, H. done.
Qed.

Section MissingZoomLevel.
Variable manifest : Manifest.t.
Variable zoomLevel : nat.

Lemma lacksZoomLevel_tail visited page ps :
  lacksZoomLevel zoomLevel visited (page :: ps) ->
  (Page.d page !! zoomLevel = None /\ visited page = true) \/
  lacksZoomLevel zoomLevel visited ps.
Proof.
  intros ([|k] & p & Hk & Hd & Hv).
  - injection Hk as ->. by left.
  - right. by exists k, p.
Qed.

Lemma singles_throw ps i :
  drop i (Manifest.pages manifest) = ps ->
  lacksZoomLevel zoomLevel (fun _ => true) ps ->
  mapIndexed
    (fun _ i =>
       pageDims <- getPageDimensions i manifest zoomLevel None ;;
       Return (Layout.mk (Dims.height pageDims) (Dims.width pageDims)
                 [PageOffset.mk i 0 0]))
    ps i = Throw (TypeError "w").
Proof.
  revert i. induction ps as [|page ps IH]; intros i Hdrop Hbad.
  - by destruct Hbad as (k & p & Hk & _).
  - apply drop_cons_inv in Hdrop as [Hi Hdrop]. simpl.
    destruct (Page.d page !! zoomLevel) as [pageData|] eqn:Hd.
    + rewrite (getPageDimensions_valid _ _ _ _ _ _ Hi Hd). simpl.
      rewrite IH; [done|done|].
      apply lacksZoomLevel_tail in Hbad as [[Hd' _]|Hbad]; [|done].
      congruence.
    + by rewrite (getPageDimensions_absent _ _ _ _ _ Hi Hd).
Qed.

Lemma book_throw verticallyOriented ps i s :
  drop i (Manifest.pages manifest) = ps ->
  lacksZoomLevel zoomLevel (fun page => negb (skipped manifest page)) ps ->
  forEach (bookPage manifest zoomLevel verticallyOriented) ps i s =
  Throw (TypeError "w").
Proof.
  revert i s. induction ps as [|page ps IH]; intros i s Hdrop Hbad.
  - by destruct Hbad as (k & p & Hk & _).
  - apply drop_cons_inv in Hdrop as [Hi Hdrop]. simpl.
    unfold bookPage at 1.
    destruct (skipped manifest page) eqn:Hskip.
    + simpl. apply IH; [done|].
      apply lacksZoomLevel_tail in Hbad as [[_ Hv]|Hbad]; [|done].
      by rewrite Hskip in Hv.
    + destruct (Page.d page !! zoomLevel) as [pageData|] eqn:Hd.
      * rewrite (getPageDimensions_valid _ _ _ _ _ _ Hi Hd). simpl.
        assert (lacksZoomLevel zoomLevel
                  (fun page => negb (skipped manifest page)) ps) as Hbad'.
        { apply lacksZoomLevel_tail in Hbad as [[Hd' _]|Hbad]; [|done].
          congruence. }
        destruct (verticallyOriented && (i =? 0)%nat); simpl;
          [by apply IH|].
        destruct (BookScan.leftPage s); simpl; by apply IH.
      * by rewrite (getPageDimensions_absent _ _ _ _ _ Hi Hd).
Qed.
End MissingZoomLevel.

(** C2 (as amended).  If the requested zoom level is absent from a page's
    dimension table, [getPageDimensions] throws for that page: the
    [TypeError] of reading [w] on the missing entry (the engine has no error
    of its own for this).  A [getDocumentLayout] that resolves that page
    (any page in single-page layout, a page that is not skipped in book
    layout) throws the same exception: it returns no layout, not even a
    partial one. *)
Theorem missing_zoom_level_throws (config : Config.t) (pageIndex : nat)
    (page : Page.t) (options : option Options.t) :
  Manifest.pages (Config.manifest config) !! pageIndex = Some page ->
  Page.d page !! Config.zoomLevel config = None ->
  getPageDimensions pageIndex (Config.manifest config)
    (Config.zoomLevel config) options = Throw (TypeError "w") /\
  (resolved config page = true ->
   getDocumentLayout config = Throw (TypeError "w")).
Proof.
  intros Hp Hd. split; [by eapply getPageDimensions_absent|].
  unfold resolved, getDocumentLayout, getBookLayoutGroups,
    getSinglesLayoutGroups.
  destruct (Config.inBookLayout config); simpl; intros Hres.
  - rewrite book_throw; [done|by rewrite drop_0|].
    exists pageIndex, page. by rewrite Hres.
  - rewrite singles_throw; [done|by rewrite drop_0|].
    by exists pageIndex, page.
Qed.

(** C2 (as worded) fails: in book layout of a paged manifest a canvas that
    is not paged is skipped before its dimensions are resolved; its table
    may lack the zoom level and the layout is returned all the same. *)
Lemma missing_zoom_level_on_skipped_page :
  ~ missing_zoom_level_fails_layout skippedLacksZoom.
Proof.
  intros H. destruct (H 1%nat emptyPage eq_refl eq_refl) as [e He].
  vm_compute in He. discriminate.
Qed.

(** ** The book scan: which pages end up in the groups *)

Lemma pageIndices_snoc (gs : list Layout.t) (g : Layout.t) :
  pageIndices (gs ++ [g]) =
  pageIndices gs ++ map PageOffset.index (Layout.pageOffsets g).
Proof.
  unfold pageIndices. rewrite map_app, concat_app. simpl.
  by rewrite app_nil_r.
Qed.

Section BookIndices.
Variable manifest : Manifest.t.
Variable zoomLevel : nat.
Variable verticallyOriented : bool.

Lemma bookPage_indices s page i s' :
  (i = 0%nat -> BookScan.leftPage s = None) ->
  bookPage manifest zoomLevel verticallyOriented s page i = Return s' ->
  scanIndices s' =
  scanIndices s ++ keptIndices manifest [page] i.
Proof.
  intros Hfirst. unfold bookPage. simpl.
  destruct (skipped manifest page).
  - intros [= <-]. by rewrite app_nil_r.
  - intros H. apply bind_Return in H as (pageDims & _ & H).
    destruct (verticallyOriented && (i =? 0)%nat) eqn:Hcover.
    + apply andb_true_iff in Hcover as [_ Hi%Nat.eqb_eq].
      injection H as <-. unfold scanIndices. simpl.
      rewrite (Hfirst Hi), pageIndices_snoc, !app_nil_r. by subst i.
    + unfold scanIndices.
      destruct (BookScan.leftPage s) as [leftPage|];
        injection H as <-; simpl.
      * rewrite pageIndices_snoc, app_nil_r. simpl.
        by rewrite <- app_assoc.
      * by rewrite app_nil_r.
Qed.

Lemma keptIndices_cons page ps i :
  keptIndices manifest (page :: ps) i =
  keptIndices manifest [page] i ++ keptIndices manifest ps (S i).
Proof. simpl. by destruct (skipped manifest page). Qed.

Lemma forEach_bookPage_indices ps i s s' :
  (i = 0%nat -> BookScan.leftPage s = None) ->
  forEach (bookPage manifest zoomLevel verticallyOriented) ps i s =
    Return s' ->
  scanIndices s' = scanIndices s ++ keptIndices manifest ps i.
Proof.
  revert i s. induction ps as [|page ps IH]; intros i s Hfirst H.
  - injection H as <-. simpl. by rewrite app_nil_r.
  - simpl in H. apply bind_Return in H as (s1 & Hstep & H).
    apply IH in H; [|lia].
    apply bookPage_indices in Hstep; [|done].
    by rewrite keptIndices_cons, app_assoc, <- Hstep.
Qed.

Lemma flushLeftPage_indices s :
  pageIndices (flushLeftPage verticallyOriented s) = scanIndices s.
Proof.
  unfold flushLeftPage, scanIndices.
  destruct (BookScan.leftPage s) as [leftPage|].
  - by rewrite pageIndices_snoc.
  - by rewrite app_nil_r.
Qed.

Lemma getBookLayoutGroups_indices gs :
  getBookLayoutGroups manifest zoomLevel verticallyOriented = Return gs ->
  pageIndices gs = keptIndices manifest (Manifest.pages manifest) 0.
Proof.
  unfold getBookLayoutGroups. intros H.
  apply bind_Return in H as (s & Hscan & [= <-]).
  apply forEach_bookPage_indices in Hscan; [|done].
  by rewrite flushLeftPage_indices, Hscan.
Qed.

Lemma keptIndices_sorted ps i :
  drop i (Manifest.pages manifest) = ps ->
  StronglySorted lt (keptIndices manifest ps i) /\
  forall j, j ∈ keptIndices manifest ps i ->
    (i <= j)%nat /\
    exists page,
      Manifest.pages manifest !! j = Some page /\
      skipped manifest page = false.
Proof.
  revert i. induction ps as [|page ps IH]; intros i Hdrop.
  - split; [constructor|]. intros j Hj. by apply elem_of_nil in Hj.
  - apply drop_cons_inv in Hdrop as [Hi Hdrop].
    destruct (IH _ Hdrop) as [Hsorted Hin]. simpl.
    destruct (skipped manifest page) eqn:Hskip.
    + split; [done|]. intros j Hj.
      destruct (Hin j Hj) as [Hle Hpage]. split; [lia|done].
    + split.
      * constructor; [done|]. apply Forall_forall. intros j Hj.
        destruct (Hin j Hj) as [Hle _]. lia.
      * intros j [->|Hj]%elem_of_cons; [by eauto|].
        destruct (Hin j Hj) as [Hle Hpage]. split; [lia|done].
Qed.
End BookIndices.

(** C10.  The page indices in the offsets [getBookLayoutGroups] produces,
    read group after group, are strictly increasing (so within a two-page
    group and from one group to the next), and each of them is the index
    of a page that the paged/non-paged rule does not skip. *)
Theorem book_indices_increasing (manifest : Manifest.t) (zoomLevel : nat)
    (verticallyOriented : bool) (gs : list Layout.t) :
  getBookLayoutGroups manifest zoomLevel verticallyOriented = Return gs ->
  StronglySorted lt (pageIndices gs) /\
  forall i, i ∈ pageIndices gs ->
    exists page,
      Manifest.pages manifest !! i = Some page /\
      skipped manifest page = false.
Proof.
  intros H. apply getBookLayoutGroups_indices in H. rewrite H.
  destruct (keptIndices_sorted manifest (Manifest.pages manifest) 0)
    as [Hsorted Hin]; [by rewrite drop_0|].
  split; [done|]. intros i Hi. by destruct (Hin i Hi).
Qed.

(** ** The book scan: pairs *)

Section BookPairs.
Variable manifest : Manifest.t.
Variable zoomLevel : nat.
Hypothesis not_paged : Manifest.paged manifest = false.

Lemma forEach_bookPage_pairing ps i s :
  drop i (Manifest.pages manifest) = ps ->
  Forall (fun page => is_Some (Page.d page !! zoomLevel)) ps ->
  pairing i s ->
  exists s',
    forEach (bookPage manifest zoomLevel false) ps i s = Return s' /\
    pairing (i + length ps) s'.
Proof.
  revert i s. induction ps as [|page ps IH]; intros i s Hdrop Hvalid Hinv.
  - exists s. simpl. by rewrite Nat.add_0_r.
  - apply drop_cons_inv in Hdrop as [Hi Hdrop].
    apply Forall_cons in Hvalid as [[pageData Hd] Hvalid].
    simpl. unfold bookPage at 1, skipped. rewrite not_paged. simpl.
    rewrite (getPageDimensions_valid _ _ _ _ _ _ Hi Hd). simpl.
    replace (i + S (length ps))%nat with (S i + length ps)%nat by lia.
    destruct Hinv as [Hpairs Hpending].
    destruct (BookScan.leftPage s) as [leftPage|]; simpl.
    + apply IH; [done|done|]. destruct Hpending as [Hleft Hcount].
      split; simpl.
      * apply Forall_app. split; [done|]. constructor; [|constructor].
        eexists _, _. split; [reflexivity|]. simpl. lia.
      * rewrite length_app. simpl. lia.
    + apply IH; [done|done|]. split; simpl; [done|]. lia.
Qed.
End BookPairs.

(** C3 (as amended).  In book layout of a manifest that is not paged, with
    an even number n of pages that all have the zoom level, and horizontal
    orientation, [getBookLayoutGroups] returns n/2 groups, each of exactly
    two page offsets with consecutive indices. *)
Theorem book_pairs_horizontal (manifest : Manifest.t) (zoomLevel : nat) :
  Manifest.paged manifest = false ->
  Nat.Even (length (Manifest.pages manifest)) ->
  Forall (fun page => is_Some (Page.d page !! zoomLevel))
    (Manifest.pages manifest) ->
  exists gs,
    getBookLayoutGroups manifest zoomLevel false = Return gs /\
    length gs = (length (Manifest.pages manifest) / 2)%nat /\
    Forall facingPair gs.
Proof.
  intros Hpaged [half Heven] Hvalid.
  destruct (forEach_bookPage_pairing manifest zoomLevel Hpaged
              (Manifest.pages manifest) 0 (BookScan.mk [] None))
    as (s & Hscan & Hpairs & Hpending); [by rewrite drop_0|done| |].
  { split; [constructor|done]. }
  unfold getBookLayoutGroups. rewrite Hscan. unfold bind.
  exists (flushLeftPage false s). split; [done|].
  unfold flushLeftPage.
  destruct (BookScan.leftPage s) as [leftPage|].
  - lia.
  - split; [|done]. rewrite Nat.add_0_l in Hpending.
    rewrite <- Hpending, Nat.mul_comm. symmetry. by apply Nat.div_mul.
Qed.

(** C3 (as worded) fails in vertical orientation: of two pages the first
    is put alone and the second is flushed alone, two groups of one page. *)
Lemma book_pairs_fail_vertical : ~ pairs_in_any_orientation twoPages 0 true.
Proof.
  intros H.
  destruct (H eq_refl (ex_intro _ 1%nat eq_refl)
              [Layout.mk 200 200 [PageOffset.mk 0 0 100];
               Layout.mk 200 200 [PageOffset.mk 1 0 0]]) as [Hlen _].
  - vm_compute. reflexivity.
  - vm_compute in Hlen. discriminate.
Qed.

(** ** The three-page book *)

(** C4 (as amended).  For three pages of 100 by 200 at zoom level 0, book
    layout, vertical orientation: page 0 is alone in a group of 200 by 200
    at left offset 100; pages 1 and 2 share a group of 200 by 200 at left
    offsets 0 and 100; the document is as wide as the secondary extent, 200
    plus the left and right document padding; there are two page groups. *)
Theorem book_of_three (padding : Padding.t) :
  exists dims g0 g1,
    getDocumentLayout (bookOf3 padding) =
      Return (DocumentLayout.mk dims [g0; g1]) /\
    PageGroup.layout g0 = Layout.mk 200 200 [PageOffset.mk 0 0 100] /\
    PageGroup.layout g1 =
      Layout.mk 200 200 [PageOffset.mk 1 0 0; PageOffset.mk 2 0 100] /\
    Dims.width dims =
      getExtentAlongSecondaryAxis [PageGroup.layout g0; PageGroup.layout g1]
        (bookOf3 padding) /\
    Dims.width dims ==
      200 + (DocPadding.left (Padding.document padding) +
             DocPadding.right (Padding.document padding)).
Proof.
  unfold getDocumentLayout. simpl.
  assert (getBookLayoutGroups
            (Manifest.mk [page100x200; page100x200; page100x200] false)
            0 true =
          Return [Layout.mk 200 200 [PageOffset.mk 0 0 100];
                  Layout.mk 200 200
                    [PageOffset.mk 1 0 0; PageOffset.mk 2 0 100]]) as ->
    by (vm_compute; reflexivity).
  simpl. eexists _, _, _. split; [reflexivity|]. simpl.
  repeat split.
  unfold getExtentAlongSecondaryAxis, secondaryPadding. simpl.
  change (Math_max _ (Math_max _ 0)) with 200. ring.
Qed.

(** C4 (as worded) fails in its count: there are two page groups, not
    three. *)
Lemma book_of_three_not_three_groups :
  ~ exists r,
      getDocumentLayout
        (bookOf3 samplePadding) =
        Return r /\
      length (DocumentLayout.pageGroups r) = 3%nat.
Proof.
  intros (r & Hr & Hlen). vm_compute in Hr. injection Hr as <-.
  discriminate.
Qed.

(** ** The properties on the sample inputs *)

Lemma missing_zoom_level_throws_witness :
  (Manifest.pages (Config.manifest missingZoom) !! 1%nat = Some page100x200 /\
   Page.d page100x200 !! Config.zoomLevel missingZoom = None /\
   resolved missingZoom page100x200 = true) /\
  getPageDimensions 1 (Config.manifest missingZoom)
    (Config.zoomLevel missingZoom) None = Throw (TypeError "w") /\
  getDocumentLayout missingZoom = Throw (TypeError "w").
Proof.
  split; [repeat split|].
  destruct (missing_zoom_level_throws missingZoom 1 page100x200 None)
    as [Hpage Hlayout]; [reflexivity|reflexivity|].
  split; [exact Hpage|]. apply Hlayout. reflexivity.
Defined.

Lemma book_pairs_horizontal_witness :
  (Manifest.paged twoPages = false /\
   Nat.Even (length (Manifest.pages twoPages))) /\
  exists gs,
    getBookLayoutGroups twoPages 0 false = Return gs /\
    length gs = (length (Manifest.pages twoPages) / 2)%nat /\
    Forall facingPair gs.
Proof.
  split; [split; [reflexivity|by exists 1%nat]|].
  apply (book_pairs_horizontal twoPages 0).
  - reflexivity.
  - by exists 1%nat.
  - repeat constructor; by eexists.
Defined.

Lemma regions_adjacent_witness :
  getDocumentLayout (bookOf3 samplePadding) = Return bookOf3Layout /\
  trailingEdge (bookOf3 samplePadding) (PageGroup.region bookOf3Group0) =
  leadingEdge (bookOf3 samplePadding) (PageGroup.region bookOf3Group1).
Proof.
  split; [vm_compute; reflexivity|].
  apply (regions_adjacent (bookOf3 samplePadding) bookOf3Layout 0).
  - vm_compute. reflexivity.
  - reflexivity.
  - reflexivity.
Defined.

Lemma groups_centred_witness :
  getDocumentLayout (bookOf3 samplePadding) = Return bookOf3Layout /\
  2 * secondaryOffset (bookOf3 samplePadding)
        (PageGroup.region bookOf3Group1) +
    secondaryDim (bookOf3 samplePadding) (PageGroup.layout bookOf3Group1) ==
  secondaryExtent (bookOf3 samplePadding)
    (DocumentLayout.dimensions bookOf3Layout).
Proof.
  split; [vm_compute; reflexivity|].
  apply (groups_centred (bookOf3 samplePadding) bookOf3Layout bookOf3Group1).
  - vm_compute. reflexivity.
  - apply list_elem_of_further, list_elem_of_here.
Defined.

Lemma round_flag_has_no_effect_witness :
  getPageDimensions 1 twoPages 0 (Some (Options.mk (Some false))) =
    getPageDimensions 1 twoPages 0 (Some (Options.mk (Some true))) /\
  getPageDimensions 1 twoPages 0 (Some (Options.mk (Some false))) =
    getPageDimensions 1 twoPages 0 None /\
  forall options,
    getPageDimensions 1 twoPages 0 options = Return (Dims.mk 100 200).
Proof.
  apply (round_flag_has_no_effect 1 twoPages 0 page100x200
           (PageData.mk 100 200)); reflexivity.
Defined.

Lemma empty_manifest_witness :
  Manifest.pages (Config.manifest emptyBook) = [] /\
  exists dims,
    getDocumentLayout emptyBook = Return (DocumentLayout.mk dims []) /\
    primaryExtent emptyBook dims == 7 /\
    secondaryExtent emptyBook dims == 1 + 3.
Proof.
  split; [reflexivity|]. apply (empty_manifest emptyBook). reflexivity.
Defined.

Lemma book_indices_increasing_witness :
  getBookLayoutGroups withInsert 0 false = Return withInsertGroups /\
  StronglySorted lt (pageIndices withInsertGroups) /\
  forall i, i ∈ pageIndices withInsertGroups ->
    exists page,
      Manifest.pages withInsert !! i = Some page /\
      skipped withInsert page = false.
Proof.
  split; [vm_compute; reflexivity|].
  apply (book_indices_increasing withInsert 0 false withInsertGroups).
  vm_compute. reflexivity.
Defined.

(** ** Single-page layout *)

Lemma mapIndexed_Return {A B : Type} (f : A -> nat -> result B)
    (a : list A) (i : nat) (ys : list B) :
  mapIndexed f a i = Return ys ->
  length ys = length a /\
  forall k y, ys !! k = Some y ->
    exists x, a !! k = Some x /\ f x (i + k)%nat = Return y.
Proof.
  revert i ys. induction a as [|x a IH]; intros i ys H; simpl in H.
  - injection H as <-. split; [done|]. intros k y Hk.
    by rewrite lookup_nil in Hk.
  - apply bind_Return in H as (y0 & Hx & H).
    apply bind_Return in H as (ys' & Hrest & [= <-]).
    destruct (IH _ _ Hrest) as [Hlen Hlookup]. split; [simpl; lia|].
    intros [|k] y Hk; simpl in Hk.
    + injection Hk as <-. exists x. by rewrite Nat.add_0_r.
    + destruct (Hlookup k y Hk) as (x' & Hx' & Hf). exists x'.
      split; [done|]. by replace (i + S k)%nat with (S i + k)%nat by lia.
Qed.

(** X1.  In single-page layout there is one group per page, in page order:
    group [i] has the dimensions [getPageDimensions] gives for page [i] and
    holds that page alone, at offset (0, 0). *)
Theorem singles_one_group_per_page (manifest : Manifest.t) (zoomLevel : nat)
    (gs : list Layout.t) :
  getSinglesLayoutGroups manifest zoomLevel = Return gs ->
  length gs = length (Manifest.pages manifest) /\
  forall i g, gs !! i = Some g ->
    exists pageDims,
      getPageDimensions i manifest zoomLevel None = Return pageDims /\
      g = Layout.mk (Dims.height pageDims) (Dims.width pageDims)
            [PageOffset.mk i 0 0].
Proof.
  unfold getSinglesLayoutGroups. intros H.
  apply mapIndexed_Return in H as [Hlen Hlookup]. split; [done|].
  intros i g Hg. destruct (Hlookup i g Hg) as (page & _ & Hf). simpl in Hf.
  apply bind_Return in Hf as (pageDims & Hdims & [= <-]). by exists pageDims.
Qed.

Lemma singles_one_group_per_page_witness :
  getSinglesLayoutGroups twoPages 0 =
    Return [Layout.mk 200 100 [PageOffset.mk 0 0 0];
            Layout.mk 200 100 [PageOffset.mk 1 0 0]] /\
  length [Layout.mk 200 100 [PageOffset.mk 0 0 0];
          Layout.mk 200 100 [PageOffset.mk 1 0 0]] =
    length (Manifest.pages twoPages) /\
  forall i g,
    [Layout.mk 200 100 [PageOffset.mk 0 0 0];
     Layout.mk 200 100 [PageOffset.mk 1 0 0]] !! i = Some g ->
    exists pageDims,
      getPageDimensions i twoPages 0 None = Return pageDims /\
      g = Layout.mk (Dims.height pageDims) (Dims.width pageDims)
            [PageOffset.mk i 0 0].
Proof.
  split; [vm_compute; reflexivity|].
  apply (singles_one_group_per_page twoPages 0). vm_compute. reflexivity.
Defined.

(** ** When the layout is returned *)

Section Returns.
Variable manifest : Manifest.t.
Variable zoomLevel : nat.

Lemma singles_return ps i :
  drop i (Manifest.pages manifest) = ps ->
  Forall (fun page => is_Some (Page.d page !! zoomLevel)) ps ->
  exists gs,
    mapIndexed
      (fun _ i =>
         pageDims <- getPageDimensions i manifest zoomLevel None ;;
         Return (Layout.mk (Dims.height pageDims) (Dims.width pageDims)
                   [PageOffset.mk i 0 0]))
      ps i = Return gs.
Proof.
  revert i. induction ps as [|page ps IH]; intros i Hdrop Hvalid.
  - by exists [].
  - apply drop_cons_inv in Hdrop as [Hi Hdrop].
    apply Forall_cons in Hvalid as [[pageData Hd] Hvalid]. simpl.
    rewrite (getPageDimensions_valid _ _ _ _ _ _ Hi Hd). simpl.
    destruct (IH _ Hdrop Hvalid) as (gs & ->). simpl. by eexists.
Qed.

Lemma book_return verticallyOriented ps i s :
  drop i (Manifest.pages manifest) = ps ->
  Forall (fun page => skipped manifest page = false ->
                      is_Some (Page.d page !! zoomLevel)) ps ->
  exists s',
    forEach (bookPage manifest zoomLevel verticallyOriented) ps i s =
    Return s'.
Proof.
  revert i s. induction ps as [|page ps IH]; intros i s Hdrop Hvalid.
  - by exists s.
  - apply drop_cons_inv in Hdrop as [Hi Hdrop].
    apply Forall_cons in Hvalid as [Hpage Hvalid]. simpl.
    unfold bookPage at 1.
    destruct (skipped manifest page); simpl; [by apply IH|].
    destruct (Hpage eq_refl) as [pageData Hd].
    rewrite (getPageDimensions_valid _ _ _ _ _ _ Hi Hd). simpl.
    destruct (verticallyOriented && (i =? 0)%nat); simpl; [by apply IH|].
    destruct (BookScan.leftPage s); simpl; by apply IH.
Qed.
End Returns.

Lemma getDocumentLayout_returns_iff (config : Config.t) :
  (exists r, getDocumentLayout config = Return r) <->
  Forall (fun page =>
            resolved config page = true ->
            is_Some (Page.d page !! Config.zoomLevel config))
    (Manifest.pages (Config.manifest config)).
Proof.
  unfold getDocumentLayout, getBookLayoutGroups, getSinglesLayoutGroups,
    resolved.
  split.
  - intros [r Hr]. apply Forall_forall. intros page Hin Hres.
    destruct (Page.d page !! Config.zoomLevel config) eqn:Hd; [by eexists|].
    exfalso. apply list_elem_of_lookup in Hin as [k Hk].
    destruct (Config.inBookLayout config); simpl in Hres.
    + rewrite (book_throw _ _ _ _ 0) in Hr; [done|by rewrite drop_0|].
      exists k, page. by rewrite Hres.
    + rewrite (singles_throw _ _ _ 0) in Hr; [done|by rewrite drop_0|].
      by exists k, page.
  - intros Hvalid. destruct (Config.inBookLayout config); simpl in Hvalid.
    + destruct (book_return (Config.manifest config)
                  (Config.zoomLevel config)
                  (Config.verticallyOriented config)
                  (Manifest.pages (Config.manifest config)) 0
                  (BookScan.mk [] None)) as (s & ->);
        [by rewrite drop_0| |by eexists].
      eapply Forall_impl; [exact Hvalid|]. simpl. intros page H Hskip.
      apply H. by rewrite Hskip.
    + destruct (singles_return (Config.manifest config)
                  (Config.zoomLevel config)
                  (Manifest.pages (Config.manifest config)) 0) as (gs & ->);
        [by rewrite drop_0| |by eexists].
      eapply Forall_impl; [exact Hvalid|]. simpl. auto.
Qed.

(** X2.  [getDocumentLayout] returns a layout exactly when every page it
    resolves (every page, but those the book layout skips) has the
    requested zoom level in its table. *)
Theorem layout_returns_iff (config : Config.t) :
  (exists r, getDocumentLayout config = Return r) <->
  Forall (fun page =>
            resolved config page = true ->
            is_Some (Page.d page !! Config.zoomLevel config))
    (Manifest.pages (Config.manifest config)).
Proof. apply getDocumentLayout_returns_iff. Qed.

(** ** What the page groups hold *)

Lemma getDocumentLayout_layoutGroups (config : Config.t)
    (r : DocumentLayout.t) :
  getDocumentLayout config = Return r ->
  exists layouts,
    layoutGroups config = Return layouts /\
    DocumentLayout.pageGroups r =
      Placing.pageGroups
        (placeGroups config (getExtentAlongSecondaryAxis layouts config)
           layouts 0 (Placing.mk 0 [])) /\
    primaryExtent config (DocumentLayout.dimensions r) =
      Placing.primaryDocPosition
        (placeGroups config (getExtentAlongSecondaryAxis layouts config)
           layouts 0 (Placing.mk 0 [])) + leadingPagePadding config /\
    secondaryExtent config (DocumentLayout.dimensions r) =
      getExtentAlongSecondaryAxis layouts config.
Proof.
  intros H. apply getDocumentLayout_Return in H as (layouts & Hl & H).
  exists layouts. split; [exact Hl|exact H].
Qed.

Lemma placeGroups_records (config : Config.t) (extent : Q)
    (layouts : list Layout.t) :
  let s := placeGroups config extent layouts 0 (Placing.mk 0 []) in
  forall i g, Placing.pageGroups s !! i = Some g ->
    PageGroup.index g = i /\
    PageGroup.padding g = pagePaddingOf config /\
    Region.bottom (PageGroup.region g) =
      Region.top (PageGroup.region g) +
      PagePadding.top (pagePaddingOf config) +
      Layout.height (PageGroup.layout g) /\
    Region.right (PageGroup.region g) =
      Region.left (PageGroup.region g) +
      PagePadding.left (pagePaddingOf config) +
      Layout.width (PageGroup.layout g).
Proof.
  apply (placeGroups_ind config extent
           (fun done s =>
              length (Placing.pageGroups s) = length done /\
              forall i g, Placing.pageGroups s !! i = Some g ->
                PageGroup.index g = i /\
                PageGroup.padding g = pagePaddingOf config /\
                Region.bottom (PageGroup.region g) =
                  Region.top (PageGroup.region g) +
                  PagePadding.top (pagePaddingOf config) +
                  Layout.height (PageGroup.layout g) /\
                Region.right (PageGroup.region g) =
                  Region.left (PageGroup.region g) +
                  PagePadding.left (pagePaddingOf config) +
                  Layout.width (PageGroup.layout g))).
  - split; [done|]. intros i g H. simpl in H. by rewrite lookup_nil in H.
  - intros done s layout [Hlen IH]. split.
    + simpl. rewrite !length_app. simpl. lia.
    + simpl. intros i g Hg.
      apply lookup_app_Some in Hg as [Hg|[Hge Hg]]; [by apply IH|].
      apply list_lookup_singleton_Some in Hg as [Hi <-]. simpl.
      split; [lia|done].
Qed.

(** X3.  The page groups of a returned layout wrap the layout groups of the
    grouper, in order and numbered from 0; each carries the page padding
    (top and left only), and its region is larger than its layout group by
    that padding: bottom = top + padding.top + height and right = left +
    padding.left + width. *)
Theorem page_groups_wrap_layouts (config : Config.t)
    (r : DocumentLayout.t) :
  getDocumentLayout config = Return r ->
  layoutGroups config =
    Return (map PageGroup.layout (DocumentLayout.pageGroups r)) /\
  forall i g, DocumentLayout.pageGroups r !! i = Some g ->
    PageGroup.index g = i /\
    PageGroup.padding g =
      PagePadding.mk
        (PagePadding.top (Padding.page (Config.padding config)))
        (PagePadding.left (Padding.page (Config.padding config))) /\
    Region.bottom (PageGroup.region g) =
      Region.top (PageGroup.region g) +
      PagePadding.top (Padding.page (Config.padding config)) +
      Layout.height (PageGroup.layout g) /\
    Region.right (PageGroup.region g) =
      Region.left (PageGroup.region g) +
      PagePadding.left (Padding.page (Config.padding config)) +
      Layout.width (PageGroup.layout g).
Proof.
  intros H.
  apply getDocumentLayout_layoutGroups in H as (layouts & Hl & -> & _).
  rewrite placeGroups_layouts. split; [done|].
  apply placeGroups_records.
Qed.

Lemma page_groups_wrap_layouts_witness :
  getDocumentLayout (bookOf3 samplePadding) = Return bookOf3Layout /\
  layoutGroups (bookOf3 samplePadding) =
    Return (map PageGroup.layout (DocumentLayout.pageGroups bookOf3Layout)) /\
  PageGroup.index bookOf3Group1 = 1%nat /\
  Region.bottom (PageGroup.region bookOf3Group1) = 205 + 5 + 200.
Proof.
  split; [vm_compute; reflexivity|].
  destruct (page_groups_wrap_layouts (bookOf3 samplePadding) bookOf3Layout)
    as [Hlayouts Hgroups]; [vm_compute; reflexivity|].
  split; [exact Hlayouts|].
  destruct (Hgroups 1%nat bookOf3Group1 eq_refl) as (Hi & _ & Hb & _).
  split; [exact Hi|exact Hb].
Defined.

(** ** Positions along the primary axis *)

Lemma primarySpan_app (config : Config.t) (l1 l2 : list Layout.t) :
  primarySpan config (l1 ++ l2) ==
  primarySpan config l1 + primarySpan config l2.
Proof.
  induction l1 as [|layout l1 IH]; simpl.
  - ring.
  - rewrite IH. ring.
Qed.

Lemma placeGroups_positions (config : Config.t) (extent : Q)
    (layouts : list Layout.t) :
  let s := placeGroups config extent layouts 0 (Placing.mk 0 []) in
  Placing.primaryDocPosition s == primarySpan config layouts /\
  forall i g, Placing.pageGroups s !! i = Some g ->
    leadingEdge config (PageGroup.region g) ==
    primarySpan config (take i layouts).
Proof.
  apply (placeGroups_ind config extent
           (fun done s =>
              length (Placing.pageGroups s) = length done /\
              Placing.primaryDocPosition s == primarySpan config done /\
              forall i g, Placing.pageGroups s !! i = Some g ->
                leadingEdge config (PageGroup.region g) ==
                primarySpan config (take i done))).
  - split; [done|]. split; [reflexivity|].
    intros i g H. simpl in H. by rewrite lookup_nil in H.
  - intros done s layout (Hlen & Hpos & IH). split; [|split].
    + simpl. rewrite !length_app. simpl. lia.
    + rewrite primarySpan_app. simpl.
      unfold leadingPagePadding, primaryDim. simpl.
      destruct (Config.verticallyOriented config); rewrite Hpos; ring.
    + simpl. intros i g Hg.
      apply lookup_app_Some in Hg as [Hg|[Hge Hg]].
      * rewrite take_app_le; [by apply IH|].
        apply lookup_lt_Some in Hg. lia.
      * apply list_lookup_singleton_Some in Hg as [Hi <-].
        assert (i = length done) as -> by lia.
        rewrite take_app_length. unfold leadingEdge. simpl.
        by destruct (Config.verticallyOriented config).
Qed.

(** X4.  Positions along the primary axis in closed form: a group starts
    where the groups before it end, each of them taking its primary
    dimension plus the leading page padding; the document extent is the
    span of all groups plus one more leading page padding. *)
Theorem primary_positions (config : Config.t) (r : DocumentLayout.t) :
  getDocumentLayout config = Return r ->
  let layouts := map PageGroup.layout (DocumentLayout.pageGroups r) in
  (forall i g, DocumentLayout.pageGroups r !! i = Some g ->
     leadingEdge config (PageGroup.region g) ==
     primarySpan config (take i layouts)) /\
  primaryExtent config (DocumentLayout.dimensions r) ==
    primarySpan config layouts + leadingPagePadding config.
Proof.
  intros H.
  apply getDocumentLayout_layoutGroups in H as (layouts & _ & -> & -> & _).
  simpl. rewrite placeGroups_layouts.
  destruct (placeGroups_positions config
              (getExtentAlongSecondaryAxis layouts config) layouts)
    as [Hpos Hlead].
  split; [exact Hlead|]. by rewrite Hpos.
Qed.

Lemma primary_positions_witness :
  getDocumentLayout (bookOf3 samplePadding) = Return bookOf3Layout /\
  leadingEdge (bookOf3 samplePadding) (PageGroup.region bookOf3Group1) ==
    5 + 200 /\
  primaryExtent (bookOf3 samplePadding)
    (DocumentLayout.dimensions bookOf3Layout) == (5 + 200) + (5 + 200) + 5.
Proof.
  split; [vm_compute; reflexivity|].
  destruct (primary_positions (bookOf3 samplePadding) bookOf3Layout)
    as [Hlead Hextent]; [vm_compute; reflexivity|].
  split.
  - rewrite (Hlead 1%nat bookOf3Group1 eq_refl). vm_compute. reflexivity.
  - rewrite Hextent. vm_compute. reflexivity.
Defined.

(** ** The book scan: which pages share a group *)

Lemma keptIndices_ge (manifest : Manifest.t) (ps : list Page.t) (i j : nat) :
  j ∈ keptIndices manifest ps i -> (i <= j)%nat.
Proof.
  revert i. induction ps as [|page ps IH]; intros i Hj; simpl in Hj.
  - by apply elem_of_nil in Hj.
  - destruct (skipped manifest page).
    + apply IH in Hj. lia.
    + apply elem_of_cons in Hj as [->|Hj]; [lia|]. apply IH in Hj. lia.
Qed.

Lemma bookGrouping_from_1 (manifest : Manifest.t) (ps : list Page.t)
    (verticallyOriented : bool) :
  bookGrouping verticallyOriented (keptIndices manifest ps 1) =
  pairs (keptIndices manifest ps 1).
Proof.
  unfold bookGrouping.
  destruct (keptIndices manifest ps 1) as [|[|j] kept] eqn:Hkept; try done.
  assert (0%nat ∈ keptIndices manifest ps 1) as Hin
    by (rewrite Hkept; apply list_elem_of_here).
  apply keptIndices_ge in Hin. lia.
Qed.

Section BookGrouping.
Variable manifest : Manifest.t.
Variable zoomLevel : nat.
Variable verticallyOriented : bool.

Lemma forEach_bookPage_grouping ps i s s' :
  (verticallyOriented = true -> i <> 0%nat) ->
  forEach (bookPage manifest zoomLevel verticallyOriented) ps i s =
    Return s' ->
  groupIndices (flushLeftPage verticallyOriented s') =
  groupIndices (BookScan.groups s) ++
  pairs (match BookScan.leftPage s with
         | Some leftPage => [IndexedPage.index leftPage]
         | None => []
         end ++ keptIndices manifest ps i).
Proof.
  revert i s. induction ps as [|page ps IH]; intros i s Hi H.
  - injection H as <-. unfold flushLeftPage, groupIndices.
    destruct (BookScan.leftPage s) as [leftPage|]; simpl.
    + by rewrite map_app.
    + by rewrite app_nil_r.
  - simpl in H. apply bind_Return in H as (s1 & Hstep & H).
    apply IH in H; [|lia]. rewrite H. clear H.
    unfold bookPage in Hstep. simpl.
    destruct (skipped manifest page); [by injection Hstep as <-|].
    apply bind_Return in Hstep as (pageDims & _ & Hstep).
    assert (verticallyOriented && (i =? 0)%nat = false) as Hcover.
    { destruct verticallyOriented; [|done]. simpl.
      apply Nat.eqb_neq. by apply Hi. }
    rewrite Hcover in Hstep.
    destruct (BookScan.leftPage s) as [leftPage|];
      injection Hstep as <-; simpl; [|done].
    unfold groupIndices. rewrite map_app, <- app_assoc. done.
Qed.

Lemma getBookLayoutGroups_grouping gs :
  getBookLayoutGroups manifest zoomLevel verticallyOriented = Return gs ->
  groupIndices gs =
  bookGrouping verticallyOriented
    (keptIndices manifest (Manifest.pages manifest) 0).
Proof.
  unfold getBookLayoutGroups. intros H.
  apply bind_Return in H as (s & Hscan & [= <-]).
  destruct verticallyOriented eqn:Hvo.
  - destruct (Manifest.pages manifest) as [|page ps].
    + by injection Hscan as <-.
    + simpl in Hscan. apply bind_Return in Hscan as (s1 & Hstep & Hscan).
      rewrite <- Hvo in Hscan.
      apply forEach_bookPage_grouping in Hscan; [|done].
      rewrite Hvo in Hscan. rewrite Hscan.
      unfold bookPage in Hstep. simpl.
      destruct (skipped manifest page).
      * injection Hstep as <-. simpl. by rewrite bookGrouping_from_1.
      * apply bind_Return in Hstep as (pageDims & _ & Hstep).
        simpl in Hstep. by injection Hstep as <-.
  - rewrite <- Hvo in Hscan.
    apply forEach_bookPage_grouping in Hscan; [|by rewrite Hvo].
    rewrite Hvo in Hscan. rewrite Hscan. simpl. unfold bookGrouping.
    by destruct (keptIndices manifest (Manifest.pages manifest) 0)
      as [|[|j] kept].
Qed.
End BookGrouping.

(** X5.  Which pages share a group in book layout: the indices of the pages
    that are not skipped, in order, go by consecutive pairs, a last odd one
    alone; in vertical orientation page 0, if it is not skipped, is alone
    in the first group and the pairing starts after it.  A skipped page
    does not break a pair: its neighbours are paired across it. *)
Theorem book_grouping (manifest : Manifest.t) (zoomLevel : nat)
    (verticallyOriented : bool) (gs : list Layout.t) :
  getBookLayoutGroups manifest zoomLevel verticallyOriented = Return gs ->
  groupIndices gs =
  bookGrouping verticallyOriented
    (keptIndices manifest (Manifest.pages manifest) 0).
Proof. apply getBookLayoutGroups_grouping. Qed.

Lemma book_grouping_witness :
  getBookLayoutGroups withInsert 0 false = Return withInsertGroups /\
  groupIndices withInsertGroups = [[0; 2]; [3]]%nat.
Proof.
  split; [vm_compute; reflexivity|].
  apply (book_grouping withInsert 0 false withInsertGroups).
  vm_compute. reflexivity.
Defined.

(** ** The book scan: the shapes of the groups *)

Lemma getPageDimensions_options pageIndex manifest zoomLevel
    (options options' : option Options.t) :
  getPageDimensions pageIndex manifest zoomLevel options =
  getPageDimensions pageIndex manifest zoomLevel options'.
Proof.
  unfold getPageDimensions.
  destruct (Manifest.pages manifest !! pageIndex) as [page|]; [|done].
  destruct (Page.d page !! zoomLevel) as [pageData|]; [|done].
  destruct options as [[[[]|]]|], options' as [[[[]|]]|]; simpl;
    by rewrite ?Math_floor_idem.
Qed.

Section BookShapes.
Variable manifest : Manifest.t.
Variable zoomLevel : nat.
Variable verticallyOriented : bool.

Lemma bookPage_shaped s page i s' :
  scanShaped manifest zoomLevel verticallyOriented s ->
  bookPage manifest zoomLevel verticallyOriented s page i = Return s' ->
  scanShaped manifest zoomLevel verticallyOriented s'.
Proof.
  intros [Hgroups Hleft]. unfold bookPage.
  destruct (skipped manifest page); [by intros [= <-]|].
  intros H. apply bind_Return in H as (pageDims & Hdims & H).
  rewrite (getPageDimensions_options _ _ _ _ None) in Hdims.
  destruct (verticallyOriented && (i =? 0)%nat) eqn:Hcover.
  - apply andb_true_iff in Hcover as [Hvo Hi%Nat.eqb_eq]. subst i.
    injection H as <-. split; simpl; [|done].
    apply Forall_app. split; [done|].
    constructor; [|constructor]. by apply bookGroup_first.
  - destruct (BookScan.leftPage s) as [leftPage|]; injection H as <-.
    + split; simpl; [|done].
      apply Forall_app. split; [done|]. constructor; [|constructor].
      destruct (Hleft leftPage eq_refl) as (leftDims & HleftDims & ->).
      simpl in HleftDims. by eapply bookGroup_facing.
    + split; simpl; [done|]. intros leftPage [= <-]. by exists pageDims.
Qed.

Lemma forEach_bookPage_shaped ps i s s' :
  scanShaped manifest zoomLevel verticallyOriented s ->
  forEach (bookPage manifest zoomLevel verticallyOriented) ps i s =
    Return s' ->
  scanShaped manifest zoomLevel verticallyOriented s'.
Proof.
  revert i s. induction ps as [|page ps IH]; intros i s Hs H; simpl in H.
  - by injection H as <-.
  - apply bind_Return in H as (s1 & Hstep & H).
    eapply IH; [|exact H]. by eapply bookPage_shaped.
Qed.

Lemma getBookLayoutGroups_shaped gs :
  getBookLayoutGroups manifest zoomLevel verticallyOriented = Return gs ->
  Forall (bookGroup manifest zoomLevel verticallyOriented) gs.
Proof.
  unfold getBookLayoutGroups. intros H.
  apply bind_Return in H as (s & Hscan & [= <-]).
  apply forEach_bookPage_shaped in Hscan as [Hgroups Hleft];
    [|split; [constructor|done]].
  unfold flushLeftPage.
  destruct (BookScan.leftPage s) as [leftPage|]; [|done].
  apply Forall_app. split; [done|]. constructor; [|constructor].
  destruct (Hleft leftPage eq_refl) as (pageDims & Hdims & ->). simpl.
  by apply bookGroup_last.
Qed.
End BookShapes.

(** ** Pages lie inside their group *)

Lemma Math_floor_nonneg (x : Q) : 0 <= x -> 0 <= Math_floor x.
Proof.
  intros Hx. unfold Math_floor.
  apply Qfloor_resp_le in Hx. change (Qfloor 0) with 0%Z in Hx.
  change (inject_Z 0 <= inject_Z (Qfloor x)). by rewrite <- Zle_Qle.
Qed.

Lemma getPageDimensions_nonneg pageIndex manifest zoomLevel options
    (pageDims : Dims.t) :
  nonnegPages manifest zoomLevel ->
  getPageDimensions pageIndex manifest zoomLevel options = Return pageDims ->
  0 <= Dims.width pageDims /\ 0 <= Dims.height pageDims.
Proof.
  intros Hnonneg. rewrite (getPageDimensions_options _ _ _ _ None).
  unfold getPageDimensions.
  destruct (Manifest.pages manifest !! pageIndex) as [page|] eqn:Hp; [|done].
  destruct (Page.d page !! zoomLevel) as [pageData|] eqn:Hd; [|done].
  simpl. intros [= <-]. simpl.
  destruct (Hnonneg page pageData) as [Hw Hh];
    [by eapply list_elem_of_lookup_2|done|].
  rewrite !Math_floor_idem. split; by apply Math_floor_nonneg.
Qed.


Section Inside.
Variable manifest : Manifest.t.
Variable zoomLevel : nat.
Hypothesis nonneg : nonnegPages manifest zoomLevel.

Lemma bookGroup_inside verticallyOriented g o :
  bookGroup manifest zoomLevel verticallyOriented g ->
  o ∈ Layout.pageOffsets g ->
  pageInside manifest zoomLevel g o.
Proof.
  intros Hg Ho. unfold pageInside.
  destruct Hg as [pageDims Hvo Hdims|i j leftDims rightDims Hl Hr
                 |i pageDims Hdims]; simpl in Ho.
  - apply list_elem_of_singleton in Ho as ->. exists pageDims. simpl.
    destruct (getPageDimensions_nonneg _ _ _ _ _ nonneg Hdims) as [Hw Hh].
    repeat split; [done|done|lra|lra].
  - destruct (getPageDimensions_nonneg _ _ _ _ _ nonneg Hl) as [Hlw Hlh].
    destruct (getPageDimensions_nonneg _ _ _ _ _ nonneg Hr) as [Hrw Hrh].
    pose proof (Q.le_max_l (Dims.width leftDims) (Dims.width rightDims)).
    pose proof (Q.le_max_r (Dims.width leftDims) (Dims.width rightDims)).
    pose proof (Q.le_max_l (Dims.height leftDims) (Dims.height rightDims)).
    pose proof (Q.le_max_r (Dims.height leftDims) (Dims.height rightDims)).
    apply elem_of_cons in Ho as [->|Ho];
      [|apply list_elem_of_singleton in Ho as ->].
    + exists leftDims. simpl. unfold Math_max.
      destruct verticallyOriented; repeat split; try done; lra.
    + exists rightDims. simpl. unfold Math_max.
      destruct verticallyOriented; repeat split; try done; lra.
  - apply list_elem_of_singleton in Ho as ->. exists pageDims. simpl.
    destruct (getPageDimensions_nonneg _ _ _ _ _ nonneg Hdims) as [Hw Hh].
    destruct verticallyOriented; repeat split; try done; lra.
Qed.

Lemma singles_inside gs g o :
  getSinglesLayoutGroups manifest zoomLevel = Return gs ->
  g ∈ gs ->
  o ∈ Layout.pageOffsets g ->
  pageInside manifest zoomLevel g o.
Proof.
  unfold getSinglesLayoutGroups. intros H Hg Ho.
  apply mapIndexed_Return in H as [_ Hlookup].
  apply list_elem_of_lookup in Hg as [k Hk].
  destruct (Hlookup k g Hk) as (page & _ & Hf). simpl in Hf.
  apply bind_Return in Hf as (pageDims & Hdims & [= <-]). simpl in Ho.
  apply list_elem_of_singleton in Ho as ->. exists pageDims. simpl.
  repeat split; [done|done|lra|lra].
Qed.

Lemma pageInside_nonneg g o :
  pageInside manifest zoomLevel g o ->
  0 <= Layout.width g /\ 0 <= Layout.height g.
Proof.
  intros (pageDims & Hdims & _ & Hleft & Hwidth & Hheight).
  destruct (getPageDimensions_nonneg _ _ _ _ _ nonneg Hdims) as [Hw Hh].
  split; lra.
Qed.
End Inside.

Lemma layoutGroups_inside (config : Config.t) (layouts : list Layout.t)
    (g : Layout.t) (o : PageOffset.t) :
  nonnegPages (Config.manifest config) (Config.zoomLevel config) ->
  layoutGroups config = Return layouts ->
  g ∈ layouts ->
  o ∈ Layout.pageOffsets g ->
  pageInside (Config.manifest config) (Config.zoomLevel config) g o.
Proof.
  unfold layoutGroups. intros Hnonneg H Hg Ho.
  destruct (Config.inBookLayout config).
  - apply getBookLayoutGroups_shaped in H.
    eapply bookGroup_inside; [done| |done].
    eapply Forall_forall in H; [exact H|done].
  - by eapply singles_inside.
Qed.

Lemma layoutGroups_some_page (config : Config.t) (layouts : list Layout.t)
    (g : Layout.t) :
  layoutGroups config = Return layouts ->
  g ∈ layouts ->
  exists o, o ∈ Layout.pageOffsets g.
Proof.
  unfold layoutGroups. intros H Hg.
  destruct (Config.inBookLayout config).
  - apply getBookLayoutGroups_shaped in H.
    eapply Forall_forall in H; [|exact Hg].
    destruct H; eexists; apply list_elem_of_here.
  - unfold getSinglesLayoutGroups in H.
    apply mapIndexed_Return in H as [_ Hlookup].
    apply list_elem_of_lookup in Hg as [k Hk].
    destruct (Hlookup k g Hk) as (page & _ & Hf). simpl in Hf.
    apply bind_Return in Hf as (pageDims & _ & [= <-]).
    eexists. apply list_elem_of_here.
Qed.

Lemma layoutGroups_nonneg (config : Config.t) (layouts : list Layout.t) :
  nonnegPages (Config.manifest config) (Config.zoomLevel config) ->
  layoutGroups config = Return layouts ->
  Forall (fun g => 0 <= Layout.width g /\ 0 <= Layout.height g) layouts.
Proof.
  intros Hnonneg H. apply Forall_forall. intros g Hg.
  destruct (layoutGroups_some_page _ _ _ H Hg) as [o Ho].
  eapply pageInside_nonneg; [done|]. by eapply layoutGroups_inside.
Qed.

(** X6.  When no page has a negative raw dimension, every page lies inside
    its group: in whichever layout, each page offset of each group is at
    top 0 and at a left offset that is not negative, and the page, with the
    dimensions [getPageDimensions] gives it, ends within the group's width
    and height. *)
Theorem pages_inside_groups (config : Config.t) (r : DocumentLayout.t)
    (g : PageGroup.t) (o : PageOffset.t) :
  nonnegPages (Config.manifest config) (Config.zoomLevel config) ->
  getDocumentLayout config = Return r ->
  g ∈ DocumentLayout.pageGroups r ->
  o ∈ Layout.pageOffsets (PageGroup.layout g) ->
  exists pageDims,
    getPageDimensions (PageOffset.index o) (Config.manifest config)
      (Config.zoomLevel config) None = Return pageDims /\
    PageOffset.top o = 0 /\
    0 <= PageOffset.left o /\
    PageOffset.left o + Dims.width pageDims <=
      Layout.width (PageGroup.layout g) /\
    Dims.height pageDims <= Layout.height (PageGroup.layout g).
Proof.
  intros Hnonneg H Hg Ho.
  apply getDocumentLayout_layoutGroups in H as (layouts & Hl & Hgroups & _).
  eapply (layoutGroups_inside config layouts); [done|done| |done].
  rewrite <- (placeGroups_layouts config
                (getExtentAlongSecondaryAxis layouts config) layouts),
    <- Hgroups.
  apply list_elem_of_In, in_map, list_elem_of_In, Hg.
Qed.

Ltac sample_nonneg :=
  let page := fresh "page" in
  let pageData := fresh "pageData" in
  let Hin := fresh "Hin" in
  let Hd := fresh "Hd" in
  intros page pageData Hin Hd; simpl in Hin;
  repeat (apply elem_of_cons in Hin as [->|Hin]);
  try (by apply elem_of_nil in Hin);
  vm_compute in Hd; injection Hd as <-; split; discriminate.

Lemma pages_inside_groups_witness :
  nonnegPages (Config.manifest (bookOf3 samplePadding))
    (Config.zoomLevel (bookOf3 samplePadding)) /\
  getDocumentLayout (bookOf3 samplePadding) = Return bookOf3Layout /\
  exists pageDims,
    getPageDimensions 2 (Config.manifest (bookOf3 samplePadding))
      (Config.zoomLevel (bookOf3 samplePadding)) None = Return pageDims /\
    0 = 0 /\
    0 <= 100 /\
    100 + Dims.width pageDims <= 200 /\
    Dims.height pageDims <= 200.
Proof.
  split; [sample_nonneg|]. split; [vm_compute; reflexivity|].
  apply (pages_inside_groups (bookOf3 samplePadding) bookOf3Layout
           bookOf3Group1 (PageOffset.mk 2 0 100)).
  - sample_nonneg.
  - vm_compute. reflexivity.
  - apply list_elem_of_further, list_elem_of_here.
  - apply list_elem_of_further, list_elem_of_here.
Defined.

(** ** Regions do not overlap *)

Lemma lookup_map {A B : Type} (f : A -> B) (l : list A) (i : nat) (x : A) :
  l !! i = Some x -> map f l !! i = Some (f x).
Proof.
  revert i. induction l as [|y l IH]; intros [|i] H; simpl in *;
    try done.
  - by injection H as ->.
  - by apply IH.
Qed.

Lemma primarySpan_nonneg (config : Config.t) (layouts : list Layout.t) :
  0 <= leadingPagePadding config ->
  Forall (fun g => 0 <= Layout.width g /\ 0 <= Layout.height g) layouts ->
  0 <= primarySpan config layouts.
Proof.
  intros Hpad Hall. induction Hall as [|g layouts [Hw Hh] _ IH]; simpl.
  - lra.
  - assert (0 <= primaryDim config g)
      by (unfold primaryDim; by destruct (Config.verticallyOriented config)).
    lra.
Qed.

Lemma placeGroups_ordered (config : Config.t) (extent : Q)
    (layouts : list Layout.t) (i j : nat) (gi gj : PageGroup.t) :
  0 <= leadingPagePadding config ->
  Forall (fun g => 0 <= Layout.width g /\ 0 <= Layout.height g) layouts ->
  let s := placeGroups config extent layouts 0 (Placing.mk 0 []) in
  (i < j)%nat ->
  Placing.pageGroups s !! i = Some gi ->
  Placing.pageGroups s !! j = Some gj ->
  trailingEdge config (PageGroup.region gi) <=
  leadingEdge config (PageGroup.region gj).
Proof.
  intros Hpad Hall s Hij Hi Hj.
  destruct (placeGroups_positions config extent layouts) as [_ Hlead].
  pose proof (Hlead i gi Hi) as Hleadi.
  pose proof (Hlead j gj Hj) as Hleadj.
  destruct (placeGroups_records config extent layouts i gi Hi)
    as (_ & _ & Hbottom & Hright).
  assert (layouts !! i = Some (PageGroup.layout gi)) as Hli.
  { rewrite <- (placeGroups_layouts config extent layouts).
    by apply lookup_map. }
  assert (trailingEdge config (PageGroup.region gi) ==
          primarySpan config (take (S i) layouts)) as Htrail.
  { rewrite (take_S_r _ _ _ Hli), primarySpan_app, <- Hleadi. simpl.
    unfold trailingEdge, leadingEdge, leadingPagePadding, primaryDim.
    destruct (Config.verticallyOriented config).
    - rewrite Hbottom. simpl. ring.
    - rewrite Hright. simpl. ring. }
  rewrite Htrail, Hleadj.
  rewrite <- (take_drop (S i) (take j layouts)), take_take.
  replace (S i `min` j)%nat with (S i) by lia.
  rewrite primarySpan_app.
  assert (0 <= primarySpan config (drop (S i) (take j layouts))).
  { apply primarySpan_nonneg; [done|]. by apply Forall_drop, Forall_take. }
  lra.
Qed.

(** X7.  When the leading page padding and the raw page dimensions are not
    negative, regions follow one another along the primary axis without
    overlap: whenever group [i] comes before group [j], the trailing edge
    of [i] is at or before the leading edge of [j]. *)
Theorem regions_ordered (config : Config.t) (r : DocumentLayout.t)
    (i j : nat) (gi gj : PageGroup.t) :
  0 <= leadingPagePadding config ->
  nonnegPages (Config.manifest config) (Config.zoomLevel config) ->
  getDocumentLayout config = Return r ->
  (i < j)%nat ->
  DocumentLayout.pageGroups r !! i = Some gi ->
  DocumentLayout.pageGroups r !! j = Some gj ->
  trailingEdge config (PageGroup.region gi) <=
  leadingEdge config (PageGroup.region gj).
Proof.
  intros Hpad Hnonneg H.
  apply getDocumentLayout_layoutGroups in H as (layouts & Hl & -> & _).
  apply placeGroups_ordered; [done|]. by eapply layoutGroups_nonneg.
Qed.

Lemma regions_ordered_witness :
  (0 <= leadingPagePadding (bookOf3 samplePadding) /\
   nonnegPages (Config.manifest (bookOf3 samplePadding))
     (Config.zoomLevel (bookOf3 samplePadding)) /\
   getDocumentLayout (bookOf3 samplePadding) = Return bookOf3Layout) /\
  trailingEdge (bookOf3 samplePadding) (PageGroup.region bookOf3Group0) <=
  leadingEdge (bookOf3 samplePadding) (PageGroup.region bookOf3Group1).
Proof.
  split; [split; [discriminate|split; [sample_nonneg|]];
          vm_compute; reflexivity|].
  apply (regions_ordered (bookOf3 samplePadding) bookOf3Layout 0 1).
  - discriminate.
  - sample_nonneg.
  - vm_compute. reflexivity.
  - lia.
  - reflexivity.
  - reflexivity.
Defined.

(** ** The secondary axis *)

Lemma fold_max_bounds (config : Config.t) (layouts : list Layout.t)
    (init : Q) :
  let extent :=
    fold_left
      (fun maxDim layout => Math_max (secondaryDim config layout) maxDim)
      layouts init in
  init <= extent /\
  forall g, g ∈ layouts -> secondaryDim config g <= extent.
Proof.
  revert init. induction layouts as [|layout layouts IH]; intros init; simpl.
  - split; [lra|]. intros g Hg. by apply elem_of_nil in Hg.
  - destruct (IH (Math_max (secondaryDim config layout) init)) as [Hinit Hin].
    pose proof (Q.le_max_l (secondaryDim config layout) init).
    pose proof (Q.le_max_r (secondaryDim config layout) init).
    unfold Math_max in *. split; [lra|].
    intros g [->|Hg]%elem_of_cons; [lra|by apply Hin].
Qed.



(** ** The number of groups of the book layout *)

Lemma length_pairs (l : list nat) :
  length (pairs l) = ((length l + 1) / 2)%nat.
Proof.
  assert (forall l : list nat,
             length (pairs l) = ((length l + 1) / 2)%nat /\
             forall i, length (pairs (i :: l)) =
                       ((length (i :: l) + 1) / 2)%nat) as H.
  { clear l. induction l as [|j l [IH1 IH2]].
    - split; [done|]. intros i. reflexivity.
    - split; [apply IH2|]. intros i.
      change (pairs (i :: j :: l)) with ([i; j] :: pairs l).
      change (length ([i; j] :: pairs l)) with (S (length (pairs l))).
      rewrite IH1.
      change (length (i :: j :: l)) with (S (S (length l))).
      replace (S (S (length l)) + 1)%nat with ((length l + 1) + 1 * 2)%nat
        by lia.
      rewrite Nat.div_add by lia. lia. }
  apply H.
Qed.

Lemma pairs_sizes (l : list nat) :
  Forall (fun p => length p = 1%nat \/ length p = 2%nat) (pairs l).
Proof.
  assert (forall l : list nat,
             Forall (fun p => length p = 1%nat \/ length p = 2%nat)
               (pairs l) /\
             forall i,
               Forall (fun p => length p = 1%nat \/ length p = 2%nat)
                 (pairs (i :: l))) as H.
  { clear l. induction l as [|j l [IH1 IH2]].
    - split; [constructor|]. intros i. constructor; [by left|constructor].
    - split; [apply IH2|]. intros i.
      change (pairs (i :: j :: l)) with ([i; j] :: pairs l).
      constructor; [by right|done]. }
  apply H.
Qed.

Lemma length_keptIndices (manifest : Manifest.t) (ps : list Page.t)
    (i : nat) :
  length (keptIndices manifest ps i) =
  length (filter (fun page => skipped manifest page = false) ps).
Proof.
  revert i. induction ps as [|page ps IH]; intros i; [done|]. simpl.
  rewrite filter_cons.
  destruct (skipped manifest page) eqn:Hskip.
  - rewrite decide_False by done. apply IH.
  - rewrite decide_True by done. simpl. by rewrite IH.
Qed.

Lemma bookGrouping_count (manifest : Manifest.t)
    (verticallyOriented : bool) :
  let grouping :=
    bookGrouping verticallyOriented
      (keptIndices manifest (Manifest.pages manifest) 0) in
  length grouping =
    (if firstAlone manifest verticallyOriented
     then 1 + length (keptPages manifest) / 2
     else (length (keptPages manifest) + 1) / 2)%nat /\
  Forall (fun p => length p = 1%nat \/ length p = 2%nat) grouping.
Proof.
  unfold firstAlone, keptPages.
  destruct (Manifest.pages manifest) as [|page ps]; [by split|].
  cbn [keptIndices]. rewrite filter_cons.
  destruct (skipped manifest page) eqn:Hskip.
  - rewrite decide_False by done. rewrite andb_false_r.
    cbv zeta. rewrite bookGrouping_from_1. split; [|apply pairs_sizes].
    by rewrite length_pairs, length_keptIndices.
  - rewrite decide_True by done. rewrite andb_true_r.
    destruct verticallyOriented; cbn [bookGrouping negb]; cbv zeta; split.
    + cbn [length]. rewrite length_pairs, length_keptIndices.
      by rewrite Nat.add_1_r.
    + constructor; [by left|apply pairs_sizes].
    + rewrite length_pairs. cbn [length]. by rewrite length_keptIndices.
    + apply pairs_sizes.
Qed.

(** X9.  The number of groups of the book layout, from the number k of
    pages it keeps: (k + 1) / 2 rounded down, but 1 + k / 2 when the first
    page is put alone (vertical orientation, first page kept).  No group
    holds more than two pages or fewer than one. *)
Theorem book_group_count (manifest : Manifest.t) (zoomLevel : nat)
    (verticallyOriented : bool) (gs : list Layout.t) :
  getBookLayoutGroups manifest zoomLevel verticallyOriented = Return gs ->
  length gs =
    (if firstAlone manifest verticallyOriented
     then 1 + length (keptPages manifest) / 2
     else (length (keptPages manifest) + 1) / 2)%nat /\
  Forall (fun g => length (Layout.pageOffsets g) = 1%nat \/
                   length (Layout.pageOffsets g) = 2%nat) gs.
Proof.
  intros H. apply getBookLayoutGroups_grouping in H.
  destruct (bookGrouping_count manifest verticallyOriented)
    as [Hcount Hsizes].
  cbv zeta in Hcount, Hsizes. rewrite <- H in Hcount, Hsizes.
  unfold groupIndices in Hcount, Hsizes.
  rewrite length_map in Hcount. split; [exact Hcount|].
  apply Forall_forall. intros g Hg. rewrite Forall_forall in Hsizes.
  rewrite <- (length_map PageOffset.index). apply Hsizes.
  apply list_elem_of_In.
  apply (in_map (fun g => map PageOffset.index (Layout.pageOffsets g))).
  by apply list_elem_of_In.
Qed.

Lemma book_group_count_witness :
  getBookLayoutGroups withInsert 0 true =
    Return
      [Layout.mk 200 200 [PageOffset.mk 0 0 100];
       Layout.mk 200 200 [PageOffset.mk 2 0 0; PageOffset.mk 3 0 100]] /\
  length
    [Layout.mk 200 200 [PageOffset.mk 0 0 100];
     Layout.mk 200 200 [PageOffset.mk 2 0 0; PageOffset.mk 3 0 100]] =
    (1 + 3 / 2)%nat.
Proof.
  split; [vm_compute; reflexivity|].
  apply (book_group_count withInsert 0 true). vm_compute. reflexivity.
Defined.

(** ** Integral dimensions *)

Lemma isInteger_0 : isInteger 0.
Proof. by exists 0%Z. Qed.

Lemma isInteger_floor (x : Q) : isInteger (Math_floor x).
Proof. by exists (Qfloor x). Qed.

Lemma isInteger_plus (x y : Q) :
  isInteger x -> isInteger y -> isInteger (x + y).
Proof.
  intros [a Ha] [b Hb]. exists (a + b)%Z.
  by rewrite inject_Z_plus, Ha, Hb.
Qed.

Lemma isInteger_minus (x y : Q) :
  isInteger x -> isInteger y -> isInteger (x - y).
Proof.
  intros [a Ha] [b Hb]. exists (a - b)%Z.
  unfold Z.sub. by rewrite inject_Z_plus, inject_Z_opp, Ha, Hb.
Qed.

Lemma isInteger_double (x : Q) : isInteger x -> isInteger (x * 2).
Proof.
  intros [a Ha]. exists (a * 2)%Z. by rewrite inject_Z_mult, Ha.
Qed.

Lemma Math_max_cases (x y : Q) : Math_max x y = x \/ Math_max x y = y.
Proof.
  unfold Math_max, Qmax, GenericMinMax.gmax.
  destruct (x ?= y); auto.
Qed.

Lemma isInteger_max (x y : Q) :
  isInteger x -> isInteger y -> isInteger (Math_max x y).
Proof. intros Hx Hy. by destruct (Math_max_cases x y) as [->| ->]. Qed.

Lemma getPageDimensions_integer pageIndex manifest zoomLevel options
    (pageDims : Dims.t) :
  getPageDimensions pageIndex manifest zoomLevel options = Return pageDims ->
  isInteger (Dims.width pageDims) /\ isInteger (Dims.height pageDims).
Proof.
  unfold getPageDimensions.
  destruct (Manifest.pages manifest !! pageIndex) as [page|]; [|done].
  destruct (Page.d page !! zoomLevel) as [pageData|]; [|done].
  destruct (match options with
            | Some o => default false (Options.round o)
            | None => true
            end); intros [= <-]; split; apply isInteger_floor.
Qed.

Lemma bookGroup_integer manifest zoomLevel verticallyOriented g :
  bookGroup manifest zoomLevel verticallyOriented g ->
  isInteger (Layout.width g) /\ isInteger (Layout.height g) /\
  forall o, o ∈ Layout.pageOffsets g ->
    isInteger (PageOffset.left o) /\ isInteger (PageOffset.top o).
Proof.
  intros [pageDims Hvo Hdims|i j leftDims rightDims Hl Hr|i pageDims Hdims].
  - apply getPageDimensions_integer in Hdims as [Hw Hh]. simpl.
    split; [by apply isInteger_double|]. split; [done|].
    intros o ->%list_elem_of_singleton. split; [done|apply isInteger_0].
  - apply getPageDimensions_integer in Hl as [Hlw Hlh].
    apply getPageDimensions_integer in Hr as [Hrw Hrh]. simpl.
    pose proof (isInteger_max _ _ Hlw Hrw) as Hmid.
    split; [|split].
    + destruct verticallyOriented;
        [by apply isInteger_double|by apply isInteger_plus].
    + by apply isInteger_max.
    + intros o [->| ->%list_elem_of_singleton]%elem_of_cons; simpl;
        (split; [|apply isInteger_0]); destruct verticallyOriented;
        try done; try apply isInteger_0.
      by apply isInteger_minus.
  - apply getPageDimensions_integer in Hdims as [Hw Hh]. simpl.
    split; [|split; [done|]].
    + destruct verticallyOriented; [by apply isInteger_double|done].
    + intros o ->%list_elem_of_singleton. split; apply isInteger_0.
Qed.

(** X10.  Layout groups have integral geometry in both layouts: the width
    and height of every group of a returned layout and the offsets of its
    pages are integers, although the book layout asks [getPageDimensions]
    for unrounded dimensions. *)
Theorem layout_groups_integral (config : Config.t) (r : DocumentLayout.t)
    (g : PageGroup.t) :
  getDocumentLayout config = Return r ->
  g ∈ DocumentLayout.pageGroups r ->
  isInteger (Layout.width (PageGroup.layout g)) /\
  isInteger (Layout.height (PageGroup.layout g)) /\
  forall o, o ∈ Layout.pageOffsets (PageGroup.layout g) ->
    isInteger (PageOffset.left o) /\ isInteger (PageOffset.top o).
Proof.
  intros H Hg.
  apply getDocumentLayout_layoutGroups in H as (layouts & Hl & Hgs & _).
  assert (PageGroup.layout g ∈ layouts) as Hin.
  { rewrite <- (placeGroups_layouts config
                  (getExtentAlongSecondaryAxis layouts config) layouts),
      <- Hgs.
    apply list_elem_of_In, in_map, list_elem_of_In, Hg. }
  unfold layoutGroups in Hl. destruct (Config.inBookLayout config).
  - apply getBookLayoutGroups_shaped in Hl.
    eapply Forall_forall in Hl; [|exact Hin].
    by eapply bookGroup_integer.
  - unfold getSinglesLayoutGroups in Hl.
    apply mapIndexed_Return in Hl as [_ Hlookup].
    apply list_elem_of_lookup in Hin as [k Hk].
    destruct (Hlookup _ _ Hk) as (page & _ & Hf). simpl in Hf.
    apply bind_Return in Hf as (pageDims & Hdims & [= <-]).
    apply getPageDimensions_integer in Hdims as [Hw Hh]. simpl.
    split; [done|]. split; [done|].
    intros o ->%list_elem_of_singleton. split; apply isInteger_0.
Qed.

Lemma layout_groups_integral_witness :
  getDocumentLayout (bookOf3 samplePadding) = Return bookOf3Layout /\
  isInteger (Layout.width (PageGroup.layout bookOf3Group1)) /\
  isInteger (Layout.height (PageGroup.layout bookOf3Group1)) /\
  forall o, o ∈ Layout.pageOffsets (PageGroup.layout bookOf3Group1) ->
    isInteger (PageOffset.left o) /\ isInteger (PageOffset.top o).
Proof.
  split; [vm_compute; reflexivity|].
  apply (layout_groups_integral (bookOf3 samplePadding) bookOf3Layout).
  - vm_compute. reflexivity.
  - apply list_elem_of_further, list_elem_of_here.
Defined.

(** ** The largest group *)

Lemma fold_max_attained (config : Config.t) (layouts : list Layout.t)
    (init : Q) :
  let extent :=
    fold_left
      (fun maxDim layout => Math_max (secondaryDim config layout) maxDim)
      layouts init in
  extent = init \/ exists g, g ∈ layouts /\ secondaryDim config g = extent.
Proof.
  revert init. induction layouts as [|layout layouts IH]; intros init; simpl.
  - by left.
  - destruct (IH (Math_max (secondaryDim config layout) init))
      as [Heq|(g & Hg & Heq)].
    + rewrite Heq.
      destruct (Math_max_cases (secondaryDim config layout) init)
        as [->| ->]; [right|by left].
      exists layout. split; [apply list_elem_of_here|done].
    + right. exists g. split; [by apply list_elem_of_further|done].
Qed.

(** X11.  When no raw page dimension is negative and there is a group,
    the secondary extent is set by a largest group: some group is at least
    as large along the secondary axis as every group, and the extent is the
    document's secondary padding plus the secondary dimension of that
    group. *)
Theorem secondary_extent_attained (config : Config.t)
    (r : DocumentLayout.t) :
  nonnegPages (Config.manifest config) (Config.zoomLevel config) ->
  getDocumentLayout config = Return r ->
  DocumentLayout.pageGroups r <> [] ->
  exists g,
    g ∈ DocumentLayout.pageGroups r /\
    (forall g', g' ∈ DocumentLayout.pageGroups r ->
       secondaryDim config (PageGroup.layout g') <=
       secondaryDim config (PageGroup.layout g)) /\
    secondaryExtent config (DocumentLayout.dimensions r) ==
      secondaryPadding config + secondaryDim config (PageGroup.layout g).
Proof.
  intros Hnonneg H Hne.
  apply getDocumentLayout_layoutGroups in H as (layouts & Hl & Hgs & _ & ->).
  pose proof (layoutGroups_nonneg config layouts Hnonneg Hl) as Hall.
  rewrite Forall_forall in Hall.
  pose proof (placeGroups_layouts config
                (getExtentAlongSecondaryAxis layouts config) layouts)
    as Hlayouts.
  rewrite <- Hgs in Hlayouts.
  destruct (fold_max_bounds config layouts 0) as [_ Hmax].
  cbv zeta in Hmax.
  assert (exists g, g ∈ DocumentLayout.pageGroups r /\
            secondaryDim config (PageGroup.layout g) ==
            fold_left
              (fun maxDim layout =>
                 Math_max (secondaryDim config layout) maxDim)
              layouts 0) as (g & Hg & Hdim).
  { destruct (fold_max_attained config layouts 0) as [Hzero|(l & Hin & Heq)];
      cbv zeta in *.
    - destruct (DocumentLayout.pageGroups r) as [|g gs] eqn:Hr; [done|].
      exists g. split; [apply list_elem_of_here|].
      assert (PageGroup.layout g ∈ layouts) as Hin
        by (rewrite <- Hlayouts; apply list_elem_of_here).
      pose proof (Hmax _ Hin) as Hle. rewrite Hzero in Hle. rewrite Hzero.
      destruct (Hall _ Hin) as [Hw Hh].
      assert (0 <= secondaryDim config (PageGroup.layout g))
        by (unfold secondaryDim;
            by destruct (Config.verticallyOriented config)).
      lra.
    - rewrite <- Hlayouts in Hin.
      apply list_elem_of_In, in_map_iff in Hin as (g & <- & Hg).
      exists g. split; [by apply list_elem_of_In|]. by rewrite Heq. }
  exists g. split; [done|]. split.
  - intros g' Hg'. rewrite Hdim. apply Hmax. rewrite <- Hlayouts.
    apply list_elem_of_In, in_map, list_elem_of_In, Hg'.
  - unfold getExtentAlongSecondaryAxis. by rewrite Hdim.
Qed.

Lemma secondary_extent_attained_witness :
  (nonnegPages (Config.manifest paddedSingle)
     (Config.zoomLevel paddedSingle) /\
   getDocumentLayout paddedSingle = Return paddedSingleLayout /\
   DocumentLayout.pageGroups paddedSingleLayout <> []) /\
  exists g,
    g ∈ DocumentLayout.pageGroups paddedSingleLayout /\
    (forall g', g' ∈ DocumentLayout.pageGroups paddedSingleLayout ->
       secondaryDim paddedSingle (PageGroup.layout g') <=
       secondaryDim paddedSingle (PageGroup.layout g)) /\
    120 == (10 + 10) + secondaryDim paddedSingle (PageGroup.layout g).
Proof.
  split; [split; [sample_nonneg|split; [vm_compute; reflexivity|done]]|].
  apply (secondary_extent_attained paddedSingle paddedSingleLayout).
  - sample_nonneg.
  - vm_compute. reflexivity.
  - done.
Defined.

(** ** The only failure *)

(** X12.  [getDocumentLayout] throws nothing but the exception of a missing
    zoom level, and only when a page it resolves lacks the requested zoom
    level. *)
Theorem layout_throws_only_missing_zoom_level (config : Config.t)
    (e : exn) :
  getDocumentLayout config = Throw e ->
  e = TypeError "w" /\
  Exists (fun page =>
            resolved config page = true /\
            Page.d page !! Config.zoomLevel config = None)
    (Manifest.pages (Config.manifest config)).
Proof.
  intros H.
  assert (Exists (fun page =>
                    resolved config page = true /\
                    Page.d page !! Config.zoomLevel config = None)
            (Manifest.pages (Config.manifest config))) as Hbad.
  { destruct (decide (Exists (fun page =>
                    resolved config page = true /\
                    Page.d page !! Config.zoomLevel config = None)
            (Manifest.pages (Config.manifest config)))) as [Hex|Hnex];
      [done|].
    exfalso. apply not_Exists_Forall in Hnex; [|apply _].
    assert (exists r, getDocumentLayout config = Return r) as [r Hr].
    { apply getDocumentLayout_returns_iff. eapply Forall_impl; [exact Hnex|].
      simpl. intros page Hnot Hres.
      destruct (Page.d page !! Config.zoomLevel config); [by eexists|].
      by destruct Hnot. }
    congruence. }
  split; [|done].
  apply Exists_exists in Hbad as (page & Hin & Hres & Hd).
  apply list_elem_of_lookup in Hin as [k Hk].
  unfold resolved in Hres.
  unfold getDocumentLayout, getBookLayoutGroups, getSinglesLayoutGroups in H.
  destruct (Config.inBookLayout config); simpl in Hres.
  - rewrite (book_throw _ _ _ _ 0) in H; [by injection H|by rewrite drop_0|].
    exists k, page. by rewrite Hres.
  - rewrite (singles_throw _ _ _ 0) in H; [by injection H|by rewrite drop_0|].
    by exists k, page.
Qed.

Lemma layout_throws_only_missing_zoom_level_witness :
  getDocumentLayout missingZoom = Throw (TypeError "w") /\
  TypeError "w" = TypeError "w" /\
  Exists (fun page =>
            resolved missingZoom page = true /\
            Page.d page !! Config.zoomLevel missingZoom = None)
    (Manifest.pages (Config.manifest missingZoom)).
Proof.
  split; [vm_compute; reflexivity|].
  apply (layout_throws_only_missing_zoom_level missingZoom).
  vm_compute. reflexivity.
Defined.

(** ** What the layout reads of the manifest *)

Lemma getPageDimensions_same i (manifest manifest' : Manifest.t) zoomLevel
    options (page page' : Page.t) :
  Manifest.pages manifest !! i = Some page ->
  Manifest.pages manifest' !! i = Some page' ->
  Page.d page !! zoomLevel = Page.d page' !! zoomLevel ->
  getPageDimensions i manifest zoomLevel options =
  getPageDimensions i manifest' zoomLevel options.
Proof.
  intros Hp Hp' Hd. unfold getPageDimensions. by rewrite Hp, Hp', Hd.
Qed.

Section SameLayout.
Variable manifest manifest' : Manifest.t.
Variable zoomLevel : nat.
Hypothesis same_paged : Manifest.paged manifest' = Manifest.paged manifest.

Lemma singles_same ps ps' i :
  drop i (Manifest.pages manifest) = ps ->
  drop i (Manifest.pages manifest') = ps' ->
  Forall2 (fun page page' =>
             Page.d page !! zoomLevel = Page.d page' !! zoomLevel) ps ps' ->
  mapIndexed
    (fun _ i =>
       pageDims <- getPageDimensions i manifest zoomLevel None ;;
       Return (Layout.mk (Dims.height pageDims) (Dims.width pageDims)
                 [PageOffset.mk i 0 0]))
    ps i =
  mapIndexed
    (fun _ i =>
       pageDims <- getPageDimensions i manifest' zoomLevel None ;;
       Return (Layout.mk (Dims.height pageDims) (Dims.width pageDims)
                 [PageOffset.mk i 0 0]))
    ps' i.
Proof.
  intros Hdrop Hdrop' Hsame. revert i Hdrop Hdrop'.
  induction Hsame as [|page page' ps ps' Hd _ IH]; intros i Hdrop Hdrop';
    [done|].
  apply drop_cons_inv in Hdrop as [Hi Hdrop].
  apply drop_cons_inv in Hdrop' as [Hi' Hdrop']. simpl.
  rewrite (getPageDimensions_same _ _ _ _ _ _ _ Hi Hi' Hd).
  by rewrite (IH _ Hdrop Hdrop').
Qed.

Lemma book_same verticallyOriented ps ps' i s :
  drop i (Manifest.pages manifest) = ps ->
  drop i (Manifest.pages manifest') = ps' ->
  Forall2 (fun page page' =>
             Page.paged page = Page.paged page' /\
             (skipped manifest page = false ->
              Page.d page !! zoomLevel = Page.d page' !! zoomLevel))
    ps ps' ->
  forEach (bookPage manifest zoomLevel verticallyOriented) ps i s =
  forEach (bookPage manifest' zoomLevel verticallyOriented) ps' i s.
Proof.
  intros Hdrop Hdrop' Hsame. revert i s Hdrop Hdrop'.
  induction Hsame as [|page page' ps ps' [Hpaged Hd] _ IH];
    intros i s Hdrop Hdrop'; [done|].
  apply drop_cons_inv in Hdrop as [Hi Hdrop].
  apply drop_cons_inv in Hdrop' as [Hi' Hdrop']. simpl.
  assert (bookPage manifest' zoomLevel verticallyOriented s page' i =
          bookPage manifest zoomLevel verticallyOriented s page i) as ->.
  { unfold bookPage, skipped. rewrite same_paged, <- Hpaged.
    fold (skipped manifest page).
    destruct (skipped manifest page) eqn:Hskip; [done|].
    by rewrite (getPageDimensions_same _ _ _ _ _ _ _ Hi Hi' (Hd eq_refl)). }
  destruct (bookPage manifest zoomLevel verticallyOriented s page i); simpl;
    [by apply IH|done].
Qed.
End SameLayout.

Lemma placeGroups_withPages (config : Config.t) (pages : list Page.t)
    (extent : Q) (layouts : list Layout.t) (index : nat) (s : Placing.t) :
  placeGroups (withPages config pages) extent layouts index s =
  placeGroups config extent layouts index s.
Proof.
  revert index s. induction layouts as [|layout layouts IH]; intros index s;
    [done|].
  simpl. by rewrite IH.
Qed.

(** X13.  The layout reads nothing of the manifest but the paged flags and,
    for the pages it resolves, the table entry at the requested zoom level:
    replacing the pages by others that agree on these gives the same
    result, be it a layout or the exception. *)
Theorem layout_reads_zoom_level_only (config : Config.t)
    (pages' : list Page.t) :
  Forall2 (samePage config) (Manifest.pages (Config.manifest config))
    pages' ->
  getDocumentLayout (withPages config pages') = getDocumentLayout config.
Proof.
  intros Hsame.
  assert (layoutGroups (withPages config pages') = layoutGroups config)
    as Hlayouts.
  { unfold layoutGroups, getBookLayoutGroups, getSinglesLayoutGroups.
    unfold samePage, resolved in Hsame. simpl.
    destruct (Config.inBookLayout config); simpl in Hsame.
    - rewrite <- (book_same (Config.manifest config)
                    (Manifest.mk pages'
                       (Manifest.paged (Config.manifest config)))
                    (Config.zoomLevel config) eq_refl
                    (Config.verticallyOriented config)
                    (Manifest.pages (Config.manifest config)) pages' 0);
        [done|by rewrite drop_0|by rewrite drop_0|].
      eapply Forall2_impl; [exact Hsame|]. simpl.
      intros page page' [Hpaged Hd]. split; [done|].
      intros Hskip. apply Hd. by rewrite Hskip.
    - symmetry.
      apply (singles_same (Config.manifest config)
               (Manifest.mk pages'
                  (Manifest.paged (Config.manifest config)))
               (Config.zoomLevel config)
               (Manifest.pages (Config.manifest config)) pages' 0);
        [by rewrite drop_0|by rewrite drop_0|].
      eapply Forall2_impl; [exact Hsame|]. simpl.
      intros page page' [_ Hd]. by apply Hd. }
  unfold getDocumentLayout. fold (layoutGroups (withPages config pages')).
  fold (layoutGroups config). rewrite Hlayouts.
  destruct (layoutGroups config) as [layouts|e]; [|done]. simpl.
  by rewrite placeGroups_withPages.
Qed.

Lemma layout_reads_zoom_level_only_witness :
  Forall2 (samePage (bookOf3 samplePadding))
    (Manifest.pages (Config.manifest (bookOf3 samplePadding)))
    bookOf3Richer /\
  getDocumentLayout (withPages (bookOf3 samplePadding) bookOf3Richer) =
  getDocumentLayout (bookOf3 samplePadding).
Proof.
  assert (Forall2 (samePage (bookOf3 samplePadding))
            (Manifest.pages (Config.manifest (bookOf3 samplePadding)))
            bookOf3Richer) as Hsame.
  { repeat constructor; intros _; vm_compute; reflexivity. }
  split; [exact Hsame|].
  apply (layout_reads_zoom_level_only (bookOf3 samplePadding) bookOf3Richer).
  exact Hsame.
Defined.
